(** * Text similarity pipeline: a shallow embedding of
      [text_similarity_app/utils/similarity.py]

    The development follows the Python module function by function.

    - A Python [str] is a sequence of Unicode code points; [len] and
      slicing count code points.  Texts are therefore lists of code points.
    - A Python [float] is an IEEE-754 binary64 number: scores, times and the
      classifier thresholds are primitive floats, compared with the IEEE
      comparison (a NaN compares false with everything).
    - The sentence-transformer model, scikit-learn's [cosine_similarity], the
      wall clock and [str.lower] are libraries the module calls; they are the
      fields of the [Runtime] interface.  Every call of such a library can
      raise, so the pipelines live in a state-and-exception monad whose state
      records the library calls made so far and the number of clock reads. *)

From Stdlib Require Import ZArith NArith String Ascii List Floats Lia.
From stdpp Require Import gmap strings list fin_maps.

Open Scope Z_scope.

(** ** Python text *)

Module Py.

(** A code point. *)
Definition char : Type := N.

(** [str]: an immutable sequence of code points. *)
Abbreviation str := (list N).

(** A source-code literal (all literals of the module are ASCII). *)
Definition lit (s : string) : str :=
  List.map N_of_ascii (list_ascii_of_string s).

(** [len(s)] *)
Definition len (s : str) : Z := Z.of_nat (length s).

(** [s[:n]] for a literal bound [n >= 0]. *)
Definition slice_to (n : nat) (s : str) : str := take n s.

(** [str.isspace] on one code point: the code points CPython's
    [_PyUnicode_IsWhitespace] accepts. *)
Definition isspace (c : char) : bool :=
  ((9 <=? c) && (c <=? 13) || (28 <=? c) && (c <=? 32)
   || (c =? 133) || (c =? 160) || (c =? 5760)
   || (8192 <=? c) && (c <=? 8202)
   || (c =? 8232) || (c =? 8233) || (c =? 8239) || (c =? 8287)
   || (c =? 12288))%N.

(** [s.lstrip()] *)
Fixpoint lstrip (s : str) : str :=
  match s with
  | [] => []
  | c :: rest => if isspace c then lstrip rest else s
  end.

(** [s.rstrip()] *)
Definition rstrip (s : str) : str := rev (lstrip (rev s)).

(** [s.strip()]: no argument, so whitespace is removed at both ends. *)
Definition strip (s : str) : str := rstrip (lstrip s).

(** Truth value of a string: non-empty. *)
Definition truthy (s : str) : bool :=
  match s with [] => false | _ => true end.

(** [string.punctuation], by code point:
    33..47, 58..64, 91..96 and 123..126. *)
Definition punctuation : str :=
  List.map N.of_nat (seq 33 15 ++ seq 58 7 ++ seq 91 6 ++ seq 123 4).

(** [s.translate(str.maketrans('', '', deletechars))]: the table maps each
    code point of [deletechars] to [None], so these are deleted and every
    other code point is kept. *)
Definition translate_delete (deletechars : str) (s : str) : str :=
  List.filter (fun c => negb (bool_decide (c ∈ deletechars))) s.

End Py.

Import Py.

(** ** Exceptions, library calls and the monad of the pipelines *)

(** A raised exception: its class name and message. *)
Record exn : Type := Raise { exn_type : string; exn_msg : string }.

(** The two built-in exceptions the module's own operations can raise:
    indexing past the end of a sequence, and a keyword argument the callee
    does not declare. *)
Definition IndexError : exn := Raise "IndexError" "index out of range".
Definition TypeError : exn := Raise "TypeError" "unexpected keyword argument".

(** An embedding: one row of the array [model.encode] returns. *)
Abbreviation embedding := (list float).

(** The handle [SentenceTransformer(model_name)] returns, seen through the
    three things the module does with it: [model.tokenizer.encode(text)],
    [model.get_max_seq_length()] and [model.encode(sentences)]. *)
Record SentenceTransformer : Type := {
  tokenizer_encode : str -> exn + list Z;
  get_max_seq_length : exn + Z;
  encode : list str -> exn + list embedding
}.

(** The libraries the module imports.  [clock_reading n] is what the call of
    [time.time()] after [n] earlier ones returns; the model and the scorer answer the same
    arguments the same way on every call. *)
Class Runtime : Type := {
  str_lower : str -> str;
  clock_reading : nat -> float;
  sentence_transformer : str -> exn + SentenceTransformer;
  cosine_similarity : list embedding -> list embedding -> exn + list (list float)
}.

(** A call into the model or the scorer, as it is recorded. *)
Inductive event : Type :=
| LoadModel (model_name : str)
| TokenizerEncode (text : str)
| GetMaxSeqLength
| Encode (sentences : list str)
| CosineSimilarity (X Y : list embedding).

(** What a run has done so far: the library calls in the order they were
    made, and how often the clock was read. *)
Record world : Type := World { trace : list event; clock_reads : nat }.

Definition world0 : world := World [] 0.

(** A computation either raises or returns, and updates the world. *)
Definition M (A : Type) : Type := world -> (exn + A) * world.

Definition ret {A} (a : A) : M A := fun w => (inr a, w).

Definition raise {A} (e : exn) : M A := fun w => (inl e, w).

Definition bind {A B} (c : M A) (k : A -> M B) : M B :=
  fun w =>
    match c w with
    | (inl e, w') => (inl e, w')
    | (inr a, w') => k a w'
    end.

Declare Scope py_scope.
Delimit Scope py_scope with py.
Notation "x <- c ;; k" := (bind c (fun x => k))
  (at level 100, c at next level, right associativity) : py_scope.

(** A library call: it is recorded, then it answers or raises. *)
Definition call {A} (ev : event) (answer : exn + A) : M A :=
  fun w => (answer, World (trace w ++ [ev]) (clock_reads w)).

(** [seq[i]] for a literal index [i >= 0]. *)
Definition getitem {A} (l : list A) (i : nat) : M A :=
  match l !! i with
  | Some x => ret x
  | None => raise IndexError
  end.

(** [for i, x in enumerate(xs): body], the loop threading the variable the
    body updates; [i] is the counter [enumerate] has reached. *)
Fixpoint for_enumerate {A S} (body : S -> Z -> A -> M S)
    (i : Z) (xs : list A) (s : S) : M S :=
  match xs with
  | [] => ret s
  | x :: rest => bind (body s i x) (for_enumerate body (i + 1) rest)
  end.

(** ** The module [utils/similarity.py] *)

Set Warnings "-inexact-float".
Open Scope py_scope.

(** The item dictionaries [calculate_batch_similarity] appends: the same
    seven keys in both branches. *)
Record BatchItemResult : Type := {
  pair_id : Z;
  text1 : str;
  text2 : str;
  similarity_score : float;
  similarity_percentage : float;
  interpretation : str;
  processing_time : float
}.

(** [get_available_models] of [utils/helpers.py]: the five identifiers the
    application offers. *)
Definition get_available_models : list str :=
  [ lit "all-MiniLM-L6-v2";
    lit "all-mpnet-base-v2";
    lit "all-distilroberta-v1";
    lit "paraphrase-multilingual-MiniLM-L12-v2";
    lit "paraphrase-albert-small-v2" ].

(** [get_similarity_interpretation] *)
Definition get_similarity_interpretation (score : float) : str :=
  if (0.8 <? score)%float then lit "Very Similar"
  else if (0.6 <? score)%float then lit "Moderately Similar"
  else if (0.3 <? score)%float then lit "Somewhat Similar"
  else lit "Not Similar".

(** [get_similarity_color] *)
Definition get_similarity_color (score : float) : str :=
  if (0.8 <? score)%float then lit "#28a745"
  else if (0.6 <? score)%float then lit "#ffc107"
  else if (0.3 <? score)%float then lit "#17a2b8"
  else lit "#dc3545".

(** The preview both branches of the batch loop store:
    [text[:100] + '...' if len(text) > 100 else text]. *)
Definition preview (text : str) : str :=
  if 100 <? len text then slice_to 100 text ++ lit "..." else text.

Section Similarity.

Context {R : Runtime}.

(** [time.time()]: the next reading of the clock. *)
Definition time_time : M float :=
  fun w => (inr (clock_reading (clock_reads w)), World (trace w) (S (clock_reads w))).

(** [load_model]: the decorator caches the handle per name; the handle and
    the failure are those of the constructor. *)
Definition load_model (model_name : str) : M SentenceTransformer :=
  call (LoadModel model_name) (sentence_transformer model_name).

(** [preprocess_text] *)
Definition preprocess_text (text : str) (lowercase remove_punctuation : bool) : str :=
  let text := if lowercase then str_lower text else text in
  let text := if remove_punctuation then translate_delete punctuation text else text in
  strip text.

(** The call [preprocess_text(text, **preprocess_options)]: a key that is not
    a parameter of [preprocess_text] is a [TypeError]; a parameter without a
    key takes its default [False]. *)
Definition preprocess_text_kwargs (text : str) (kwargs : gmap str bool) : M str :=
  if bool_decide (dom kwargs ⊆ {[ lit "lowercase"; lit "remove_punctuation" ]}) then
    ret (preprocess_text text
           (default false (kwargs !! lit "lowercase"))
           (default false (kwargs !! lit "remove_punctuation")))
  else raise TypeError.

(** [calculate_similarity]; it returns the tuple
    [(similarity_score, processing_time, interpretation, token_info)].
    [if preprocess_options:] is false for [None] and for the empty
    dictionary. *)
Definition calculate_similarity (text1 text2 : str) (model_name : str)
    (preprocess_options : option (gmap str bool))
  : M (float * float * str * gmap str Z) :=
  if negb (truthy (strip text1)) || negb (truthy (strip text2)) then
    ret (0.0%float, 0.0%float, lit "Empty text detected", ∅)
  else
    start_time <- time_time;;
    texts <- match preprocess_options with
             | Some kwargs =>
                 if bool_decide (kwargs ≠ ∅) then
                   text1 <- preprocess_text_kwargs text1 kwargs;;
                   text2 <- preprocess_text_kwargs text2 kwargs;;
                   ret (text1, text2)
                 else ret (text1, text2)
             | None => ret (text1, text2)
             end;;
    let text1 := texts.1 in
    let text2 := texts.2 in
    model <- load_model model_name;;
    tokens1 <- call (TokenizerEncode text1) (tokenizer_encode model text1);;
    tokens2 <- call (TokenizerEncode text2) (tokenizer_encode model text2);;
    max_seq_length <- call GetMaxSeqLength (get_max_seq_length model);;
    let token_info : gmap str Z :=
      <[ lit "text1_tokens" := Z.of_nat (length tokens1) ]>
      (<[ lit "text2_tokens" := Z.of_nat (length tokens2) ]>
      (<[ lit "total_tokens" := Z.of_nat (length tokens1) + Z.of_nat (length tokens2) ]>
      (<[ lit "max_seq_length" := max_seq_length ]> ∅))) in
    embeddings <- call (Encode [text1; text2]) (encode model [text1; text2]);;
    e0 <- getitem embeddings 0;;
    e1 <- getitem embeddings 1;;
    similarity_matrix <- call (CosineSimilarity [e0] [e1]) (cosine_similarity [e0] [e1]);;
    row <- getitem similarity_matrix 0;;
    similarity_score <- getitem row 0;;
    end_time <- time_time;;
    let processing_time := (end_time - start_time)%float in
    let interpretation := get_similarity_interpretation similarity_score in
    ret (similarity_score, processing_time, interpretation, token_info).

(** The body of the loop of [calculate_batch_similarity], for the pair
    [(text1, text2)] at counter [i]; both branches end in
    [results.append]. *)
Definition batch_body (model : SentenceTransformer)
    (results : list BatchItemResult) (i : Z) (pair : str * str)
  : M (list BatchItemResult) :=
  let '(text1, text2) := pair in
  if truthy (strip text1) && truthy (strip text2) then
    start_time <- time_time;;
    embeddings <- call (Encode [text1; text2]) (encode model [text1; text2]);;
    e0 <- getitem embeddings 0;;
    e1 <- getitem embeddings 1;;
    similarity_matrix <- call (CosineSimilarity [e0] [e1]) (cosine_similarity [e0] [e1]);;
    row <- getitem similarity_matrix 0;;
    similarity_score <- getitem row 0;;
    end_time <- time_time;;
    let processing_time := (end_time - start_time)%float in
    ret (results ++ [ {| pair_id := i + 1;
                         text1 := preview text1;
                         text2 := preview text2;
                         similarity_score := similarity_score;
                         similarity_percentage := (similarity_score * 100)%float;
                         interpretation := get_similarity_interpretation similarity_score;
                         processing_time := processing_time |} ])
  else
    ret (results ++ [ {| pair_id := i + 1;
                         text1 := preview text1;
                         text2 := preview text2;
                         similarity_score := 0.0%float;
                         similarity_percentage := 0.0%float;
                         interpretation := lit "Empty text detected";
                         processing_time := 0.0%float |} ]).

(** [calculate_batch_similarity] *)
Definition calculate_batch_similarity (text_pairs : list (str * str))
    (model_name : str) : M (list BatchItemResult) :=
  let results := [] in
  model <- load_model model_name;;
  for_enumerate (batch_body model) 0 text_pairs results.

End Similarity.

(** ** The module [utils/helpers.py] *)

Module Helpers.

(** [validate_text_input]; the default of [min_length] is 1. *)
Definition validate_text_input (text : str) (min_length : Z) : bool :=
  len (strip text) >=? min_length.

(** The dictionaries [save_comparison_history] stores. *)
Record Comparison : Type := {
  timestamp : str;
  text1_preview : str;
  text2_preview : str;
  similarity_score : float;
  similarity_percentage : float;
  interpretation : str;
  processing_time : float
}.

(** [save_comparison_history].  [comparison_history] is the slot of that
    name in [st.session_state]: [None] while the key is absent, the stored
    list otherwise; the function returns the list the slot holds afterwards.
    [now] is the text [datetime.now().strftime(...)] gives at the call. *)
Definition save_comparison_history (now : str) (text1 text2 : str)
    (similarity_score : float) (interpretation : str) (processing_time : float)
    (comparison_history : option (list Comparison)) : list Comparison :=
  let comparison_history :=
    match comparison_history with
    | None => []
    | Some history => history
    end in
  let comparison :=
    {| timestamp := now;
       text1_preview := if 50 <? len text1 then slice_to 50 text1 ++ lit "..." else text1;
       text2_preview := if 50 <? len text2 then slice_to 50 text2 ++ lit "..." else text2;
       similarity_score := similarity_score;
       similarity_percentage := (similarity_score * 100)%float;
       interpretation := interpretation;
       processing_time := processing_time |} in
  let comparison_history := comparison :: comparison_history in
  if 5 <? Z.of_nat (length comparison_history) then take 5 comparison_history
  else comparison_history.

(** The table [model_info] of [display_model_info]: description, embedding
    dimensions and maximal sequence length per model. *)
Definition model_info : gmap str (str * Z * Z) :=
  list_to_map
    [ (lit "all-MiniLM-L6-v2",
       (lit "Fast and efficient model, good balance of speed and accuracy", 384, 256));
      (lit "all-mpnet-base-v2",
       (lit "High-quality model with better accuracy, slower processing", 768, 384));
      (lit "all-distilroberta-v1",
       (lit "RoBERTa-based model, good for semantic search", 768, 512));
      (lit "paraphrase-multilingual-MiniLM-L12-v2",
       (lit "Multilingual model supporting 50+ languages", 384, 128));
      (lit "paraphrase-albert-small-v2",
       (lit "Lightweight model, fastest processing", 768, 100)) ].

(** [display_model_info]: the entry whose three values the sidebar shows,
    [None] when nothing is shown. *)
Definition display_model_info (model_name : str) : option (str * Z * Z) :=
  if bool_decide (model_name ∈ dom model_info) then model_info !! model_name
  else None.

End Helpers.

(** [MODEL_DESCRIPTIONS] of [config/config.py], each entry as
    (name, description, dimensions, max_seq_length, recommended_for). *)
Definition MODEL_DESCRIPTIONS : gmap str (str * str * Z * Z * str) :=
  list_to_map
    [ (lit "all-MiniLM-L6-v2",
       (lit "MiniLM L6 v2",
        lit "Fast and efficient model, good balance of speed and accuracy",
        384, 256, lit "General purpose, quick comparisons"));
      (lit "all-mpnet-base-v2",
       (lit "MPNet Base v2",
        lit "High-quality model with better accuracy, slower processing",
        768, 384, lit "High accuracy requirements"));
      (lit "all-distilroberta-v1",
       (lit "DistilRoBERTa v1",
        lit "RoBERTa-based model, good for semantic search",
        768, 512, lit "Semantic search, longer texts"));
      (lit "paraphrase-multilingual-MiniLM-L12-v2",
       (lit "Multilingual MiniLM",
        lit "Multilingual model supporting 50+ languages",
        384, 128, lit "Multi-language text comparison"));
      (lit "paraphrase-albert-small-v2",
       (lit "ALBERT Small v2",
        lit "Lightweight model, fastest processing",
        768, 100, lit "Speed-critical applications")) ].

(** ** Notions used to state the properties *)

(** No whitespace at either end. *)
Definition trimmed (s : str) : bool :=
  match s with [] => true | c :: _ => negb (isspace c) end
  && match last s with None => true | Some c => negb (isspace c) end.

(** Both texts of a pair are non-empty after trimming: the pair takes the
    embedding branch of the pipelines. *)
Definition nonblank (pair : str * str) : bool :=
  truthy (strip pair.1) && truthy (strip pair.2).

(** Embedding and scoring of one pair with the clock left out: what
    [model.encode([text1, text2])], the two row accesses,
    [cosine_similarity] and [similarity_matrix[0][0]] give. *)
Definition pair_score {R : Runtime} (model : SentenceTransformer)
    (pair : str * str) : exn + float :=
  match encode model [pair.1; pair.2] with
  | inl e => inl e
  | inr embeddings =>
      match embeddings !! 0%nat, embeddings !! 1%nat with
      | Some e0, Some e1 =>
          match cosine_similarity [e0] [e1] with
          | inl e => inl e
          | inr similarity_matrix =>
              match similarity_matrix !! 0%nat with
              | Some row =>
                  match row !! 0%nat with
                  | Some score => inr score
                  | None => inl IndexError
                  end
              | None => inl IndexError
              end
          end
      | _, _ => inl IndexError
      end
  end.

(** The pair raises in the batch loop. *)
Definition pair_raises {R : Runtime} (model : SentenceTransformer)
    (pair : str * str) : bool :=
  nonblank pair && match pair_score model pair with inl _ => true | inr _ => false end.

(** The item the loop appends for [pair] at counter [i], up to the measured
    time. *)
Definition item_of {R : Runtime} (model : SentenceTransformer) (i : Z)
    (pair : str * str) (r : BatchItemResult) : Prop :=
  pair_id r = i + 1 /\ text1 r = preview pair.1 /\ text2 r = preview pair.2 /\
  if nonblank pair then
    pair_score model pair = inr (similarity_score r) /\
    similarity_percentage r = (similarity_score r * 100)%float /\
    interpretation r = get_similarity_interpretation (similarity_score r)
  else
    similarity_score r = 0.0%float /\ similarity_percentage r = 0.0%float /\
    interpretation r = lit "Empty text detected" /\ processing_time r = 0.0%float.

(** [s] is the preview of [t]: the first 100 code points and three dots
    when [t] has more than 100, and [t] itself otherwise. *)
Definition preview_of (t s : str) : Prop :=
  ((100 < length t)%nat -> s = take 100 t ++ lit "..." /\ length s = 103%nat) /\
  ((length t <= 100)%nat -> s = t) /\
  (length s <= 103)%nat.

(** [s] is the preview of [t] cut at [n] code points: [t] itself when it
    has at most [n], its first [n] code points and three dots otherwise. *)
Definition preview_within (n : nat) (t s : str) : Prop :=
  ((n < length t)%nat -> s = take n t ++ lit "...") /\
  ((length t <= n)%nat -> s = t).

(** The options name nothing but the two parameters of [preprocess_text]. *)
Definition options_accepted (preprocess_options : option (gmap str bool)) : Prop :=
  match preprocess_options with
  | None => True
  | Some kwargs => dom kwargs ⊆ {[ lit "lowercase"; lit "remove_punctuation" ]}
  end.

(** The sentence lists handed to [model.encode], in the order of the
    calls. *)
Definition encoded (tr : list event) : list (list str) :=
  flat_map (fun ev => match ev with Encode sentences => [sentences] | _ => [] end) tr.

(** The model names handed to [load_model], in the order of the calls. *)
Definition loaded (tr : list event) : list str :=
  flat_map (fun ev => match ev with LoadModel name => [name] | _ => [] end) tr.

(** The text the single-pair pipeline works on: the raw text when the
    options are [None] or empty, the preprocessed one otherwise. *)
Definition effective_text {R : Runtime} (preprocess_options : option (gmap str bool))
    (text : str) : str :=
  match preprocess_options with
  | Some kwargs =>
      if bool_decide (kwargs ≠ ∅) then
        preprocess_text text
          (default false (kwargs !! lit "lowercase"))
          (default false (kwargs !! lit "remove_punctuation"))
      else text
  | None => text
  end.

(** One call of [save_comparison_history] per element, in order:
    (now, text1, text2, score, interpretation, processing time). *)
Definition save_all (calls : list (str * str * str * float * str * float))
    (comparison_history : option (list Helpers.Comparison))
  : option (list Helpers.Comparison) :=
  fold_left
    (fun slot '(now, t1, t2, score, interp, pt) =>
       Some (Helpers.save_comparison_history now t1 t2 score interp pt slot))
    calls comparison_history.

(** The entry [save_comparison_history] builds from its arguments. *)
Definition entry_of (call : str * str * str * float * str * float)
  : Helpers.Comparison :=
  let '(now, t1, t2, score, interp, pt) := call in
  match Helpers.save_comparison_history now t1 t2 score interp pt None with
  | c :: _ => c
  | [] => Helpers.Build_Comparison [] [] [] 0 0 [] 0
  end.

(** ** A small runtime to run the pipelines on

    A stand-in for the libraries: a hub that knows the five offered models
    and one more, a two-dimensional embedding (length of the text, number of
    letters [a]), an encoder that refuses a text with a NUL code point, the
    cosine of the angle in binary64 and a clock that advances one second per
    reading. *)

Module Demo.

Definition float_of_nat (n : nat) : float :=
  PrimFloat.of_uint63 (Uint63.of_Z (Z.of_nat n)).

Definition ascii_lower (s : str) : str :=
  List.map (fun c => if ((65 <=? c) && (c <=? 90))%N then (c + 32)%N else c) s.

Definition embed (text : str) : embedding :=
  [ float_of_nat (length text);
    float_of_nat (length (List.filter (N.eqb 97) text)) ].

Definition toy_encode (sentences : list str) : exn + list embedding :=
  if existsb (existsb (N.eqb 0)) sentences
  then inl (Raise "ValueError" "embedded null character")
  else inr (List.map embed sentences).

Definition toy_model : SentenceTransformer :=
  {| tokenizer_encode := fun text => inr (List.map Z.of_N text);
     get_max_seq_length := inr 256;
     encode := toy_encode |}.

Definition hub : list str := get_available_models ++ [lit "all-MiniLM-L12-v2"].

Definition hub_load (model_name : str) : exn + SentenceTransformer :=
  if bool_decide (model_name ∈ hub) then inr toy_model
  else inl (Raise "OSError" "not a valid model identifier").

Fixpoint dot (x y : embedding) : float :=
  match x, y with
  | a :: x', b :: y' => (a * b + dot x' y')%float
  | _, _ => 0%float
  end.

Definition cosine (x y : embedding) : float :=
  let n := (PrimFloat.sqrt (dot x x) * PrimFloat.sqrt (dot y y))%float in
  if (n =? 0)%float then 0%float else (dot x y / n)%float.

Definition toy_cosine_similarity (X Y : list embedding) : exn + list (list float) :=
  inr (List.map (fun x => List.map (cosine x) Y) X).

Definition runtime : Runtime :=
  {| str_lower := ascii_lower;
     clock_reading := fun n => float_of_nat (1000 + n);
     sentence_transformer := hub_load;
     cosine_similarity := toy_cosine_similarity |}.

(** Five pairs; the third holds a NUL code point, which the encoder
    refuses. *)
Definition five_pairs : list (str * str) :=
  [ (lit "a", lit "a");
    (lit "a cat", lit "a dog");
    ([0%N], lit "x");
    (lit "banana", lit "b");
    (lit " ", lit "b") ].

(** A text of 101 code points. *)
Definition long_text : str := replicate 101 97%N.

Definition offered_model : str := lit "all-MiniLM-L6-v2".

(** A model of the hub that is not among the five offered ones, and a name
    the hub does not know. *)
Definition other_model : str := lit "all-MiniLM-L12-v2".
Definition unknown_model : str := lit "no-such-model".

Definition null_error : exn := Raise "ValueError" "embedded null character".
Definition hub_error : exn := Raise "OSError" "not a valid model identifier".

(** The runs the examples below refer to, evaluated. *)
Definition long_run : (exn + list BatchItemResult) * world :=
  Eval vm_compute in
    calculate_batch_similarity (R := runtime) [(long_text, lit "b")] offered_model world0.

Definition long_item : BatchItemResult :=
  Eval vm_compute in
    match long_run.1 with
    | inr (r :: _) => r
    | _ => Build_BatchItemResult 0 [] [] 0 0 [] 0
    end.

Definition cat_batch_run : (exn + list BatchItemResult) * world :=
  Eval vm_compute in
    calculate_batch_similarity (R := runtime)
      [(lit "a", lit "a"); (lit "a cat", lit "a dog")] offered_model world0.

Definition cat_single_run : (exn + float * float * str * gmap str Z) * world :=
  Eval vm_compute in
    calculate_similarity (R := runtime) (lit "a cat") (lit "a dog") offered_model None world0.

(** The options the application passes when no box is ticked: both keys,
    both [False]. *)
Definition false_options : gmap str bool :=
  {[ lit "lowercase" := false; lit "remove_punctuation" := false ]}.

Definition false_single_run : (exn + float * float * str * gmap str Z) * world :=
  Eval vm_compute in
    calculate_similarity (R := runtime) (lit "a cat") (lit "a dog")
      offered_model (Some false_options) world0.

(** Options that ask for lowercase only, and options with a key that is no
    parameter of [preprocess_text]. *)
Definition lower_options : gmap str bool := {[ lit "lowercase" := true ]}.
Definition stray_options : gmap str bool :=
  {[ lit "lowercase" := true; lit "strip" := true ]}.

Definition lower_single_run : (exn + float * float * str * gmap str Z) * world :=
  Eval vm_compute in
    calculate_similarity (R := runtime) (lit " A Cat. ") (lit "a dog")
      offered_model (Some lower_options) world0.

Definition mixed_pairs : list (str * str) :=
  [ (lit "a cat", lit "a dog"); (lit " ", lit "b"); (lit "banana", lit "b") ].

Definition mixed_batch_run : (exn + list BatchItemResult) * world :=
  Eval vm_compute in
    calculate_batch_similarity (R := runtime) mixed_pairs offered_model world0.

End Demo.

(** * Properties *)

(** ** Order facts on binary64 numbers

    The IEEE comparisons of primitive floats are specified through
    [SFcompare]; the classifier needs that the order is antisymmetric and
    transitive on numbers, and that a NaN is below and above nothing. *)

Module FloatOrder.

Lemma SFcompare_antisym (x y : spec_float) (c : comparison) :
  SFcompare x y = Some c -> SFcompare y x = Some (CompOpp c).
Proof.
  destruct x as [sx|sx| |sx mx ex], y as [sy|sy| |sy my ey]; simpl;
    try discriminate; intros [= <-]; f_equal;
    try (destruct sx; reflexivity); try (destruct sy; reflexivity);
    try (destruct sx, sy; reflexivity); try reflexivity.
  rewrite (Z.compare_antisym ex ey).
  change (PosDef.Pos.compare_cont Eq my mx) with (Pos.compare_cont (CompOpp Eq) my mx).
  rewrite <- (Pos.compare_cont_antisym mx my Eq).
  change (PosDef.Pos.compare_cont Eq mx my) with (Pos.compare_cont Eq mx my).
  destruct sx, sy; try reflexivity;
    destruct (ex ?= ey); simpl; try reflexivity;
    destruct (Pos.compare_cont Eq mx my); reflexivity.
Qed.

Lemma SFltb_trans (x y z : spec_float) :
  SFltb x y = true -> SFltb y z = true -> SFltb x z = true.
Proof.
  unfold SFltb.
  destruct x as [sx|sx| |sx mx ex], y as [sy|sy| |sy my ey],
           z as [sz|sz| |sz mz ez]; simpl; try discriminate;
    try (destruct sx; try discriminate); try (destruct sy; try discriminate);
    try (destruct sz; try discriminate); try reflexivity.
  all: rewrite ?Pos.compare_cont_spec; simpl.
  all: destruct (Z.compare_spec ex ey); try discriminate;
       destruct (Z.compare_spec ey ez); try discriminate;
       destruct (Z.compare_spec ex ez); try lia; try reflexivity;
       repeat match goal with
       | |- context [(?a ?= ?b)%positive] => destruct (Pos.compare_spec a b)
       end; simpl; try discriminate; try reflexivity; try lia.
Qed.


Lemma ltb_trans (x y z : float) :
  (x <? y)%float = true -> (y <? z)%float = true -> (x <? z)%float = true.
Proof. rewrite !ltb_spec. apply SFltb_trans. Qed.

(** [s <= a] excludes [a < s]. *)
Lemma leb_not_ltb (s a : float) :
  (s <=? a)%float = true -> (a <? s)%float = false.
Proof.
  rewrite leb_spec, ltb_spec. unfold SFleb, SFltb.
  destruct (SFcompare (Prim2SF s) (Prim2SF a)) as [c|] eqn:E; [|discriminate].
  rewrite (SFcompare_antisym _ _ _ E). destruct c; simpl; congruence.
Qed.

(** A number [s] (it is above some [b]) that is not above the number [a] is
    at most [a]. *)
Lemma not_ltb_leb (b s a : float) :
  (a =? a)%float = true -> (b <? s)%float = true ->
  (a <? s)%float = false -> (s <=? a)%float = true.
Proof.
  rewrite FloatAxioms.eqb_spec, !ltb_spec, leb_spec. unfold SFeqb, SFleb, SFltb.
  intros Ha Hb Hs.
  destruct (SFcompare (Prim2SF a) (Prim2SF s)) as [c|] eqn:E.
  - rewrite (SFcompare_antisym _ _ _ E). destruct c; simpl; congruence.
  - destruct (Prim2SF a), (Prim2SF b), (Prim2SF s); simpl in *; discriminate.
Qed.

End FloatOrder.

(** ** The classifier *)

Section Classifier.

Import FloatOrder.

(** Two different literals are different strings. *)
Ltac literal_clash :=
  match goal with
  | H : lit _ = lit _ |- _ => vm_compute in H; discriminate H
  end.

(** How the three tests of the classifier and the two upper bounds of the
    middle categories depend on each other. *)
Lemma threshold_tests (s : float) :
  ((0.8 <? s)%float = true -> (0.6 <? s)%float = true) /\
  ((0.6 <? s)%float = true -> (0.3 <? s)%float = true) /\
  ((s <=? 0.8)%float = true -> (0.8 <? s)%float = false) /\
  ((s <=? 0.6)%float = true -> (0.6 <? s)%float = false) /\
  ((0.6 <? s)%float = true -> (0.8 <? s)%float = false -> (s <=? 0.8)%float = true) /\
  ((0.3 <? s)%float = true -> (0.6 <? s)%float = false -> (s <=? 0.6)%float = true).
Proof.
  repeat split.
  - intros H. now apply (ltb_trans 0.6 0.8 s).
  - intros H. now apply (ltb_trans 0.3 0.6 s).
  - apply leb_not_ltb.
  - apply leb_not_ltb.
  - now apply not_ltb_leb.
  - now apply not_ltb_leb.
Qed.

(** C2. The classifier returns "Very Similar" exactly when [s > 0.8],
    "Moderately Similar" exactly when [0.6 < s <= 0.8], "Somewhat Similar"
    exactly when [0.3 < s <= 0.6] and "Not Similar" in every other case (a
    NaN included); the score 0.8 itself is "Moderately Similar". *)
Theorem classifier_thresholds (s : float) :
  (get_similarity_interpretation s = lit "Very Similar"
     <-> (0.8 <? s)%float = true) /\
  (get_similarity_interpretation s = lit "Moderately Similar"
     <-> (0.6 <? s)%float = true /\ (s <=? 0.8)%float = true) /\
  (get_similarity_interpretation s = lit "Somewhat Similar"
     <-> (0.3 <? s)%float = true /\ (s <=? 0.6)%float = true) /\
  (get_similarity_interpretation s = lit "Not Similar"
     <-> ~ (0.8 <? s)%float = true
         /\ ~ ((0.6 <? s)%float = true /\ (s <=? 0.8)%float = true)
         /\ ~ ((0.3 <? s)%float = true /\ (s <=? 0.6)%float = true)) /\
  get_similarity_interpretation 0.8 = lit "Moderately Similar".
Proof.
  destruct (threshold_tests s) as (H86 & H63 & U8 & U6 & L8 & L6).
  unfold get_similarity_interpretation at 1 2 3 4.
  destruct (0.8 <? s)%float eqn:E8, (0.6 <? s)%float eqn:E6,
           (0.3 <? s)%float eqn:E3;
    try (specialize (H86 eq_refl)); try (specialize (H63 eq_refl));
    try discriminate;
    destruct (s <=? 0.8)%float eqn:E8', (s <=? 0.6)%float eqn:E6';
    try (specialize (U8 eq_refl)); try (specialize (U6 eq_refl));
    try (specialize (L8 eq_refl eq_refl)); try (specialize (L6 eq_refl eq_refl));
    try discriminate;
    repeat split; intros; try reflexivity; try literal_clash;
    try discriminate; intuition discriminate.
Qed.

(** The boundary scores fall into the lower category; the next binary64
    number above 0.8 is already "Very Similar"; a NaN is "Not Similar". *)
Example classifier_boundaries :
  get_similarity_interpretation 0.8 = lit "Moderately Similar" /\
  get_similarity_interpretation 0.8000001 = lit "Very Similar" /\
  get_similarity_interpretation (PrimFloat.next_up 0.8) = lit "Very Similar" /\
  get_similarity_interpretation 0.6 = lit "Somewhat Similar" /\
  get_similarity_interpretation 0.3 = lit "Not Similar" /\
  get_similarity_interpretation (-1) = lit "Not Similar" /\
  get_similarity_interpretation PrimFloat.nan = lit "Not Similar".
Proof. repeat split. Qed.

(** C10. Two scores have the same interpretation exactly when they have the
    same colour: both functions cut the scores at 0.8, 0.6 and 0.3, so each
    category always comes with the same colour. *)
Theorem interpretation_iff_color (s1 s2 : float) :
  get_similarity_interpretation s1 = get_similarity_interpretation s2
  <-> get_similarity_color s1 = get_similarity_color s2.
Proof.
  unfold get_similarity_interpretation, get_similarity_color.
  destruct (0.8 <? s1)%float, (0.6 <? s1)%float, (0.3 <? s1)%float,
           (0.8 <? s2)%float, (0.6 <? s2)%float, (0.3 <? s2)%float;
    split; intros H; first [reflexivity | literal_clash].
Qed.

End Classifier.

(** ** Trimming and the text normalizer *)

Section Strip.

Lemma forallb_rev {A} (f : A -> bool) (l : list A) :
  forallb f (rev l) = forallb f l.
Proof.
  induction l as [|a l IH]; simpl; [reflexivity|].
  rewrite forallb_app, IH. simpl. rewrite andb_true_r. apply andb_comm.
Qed.

Lemma last_rev {A} (l : list A) : last (rev l) = head l.
Proof. destruct l as [|a l]; simpl; [reflexivity|]. apply last_snoc. Qed.

(** [lstrip] removes a prefix of whitespace, [rstrip] a suffix. *)
Lemma lstrip_split (s : str) :
  exists l, s = l ++ lstrip s /\ forallb isspace l = true.
Proof.
  induction s as [|c s (l & Hs & Hl)]; simpl.
  - now exists [].
  - destruct (isspace c) eqn:Hc.
    + exists (c :: l). simpl. rewrite Hc, Hl. split; [now f_equal | reflexivity].
    + now exists [].
Qed.

Lemma rstrip_split (s : str) :
  exists r, s = rstrip s ++ r /\ forallb isspace r = true.
Proof.
  destruct (lstrip_split (rev s)) as (l & Hs & Hl).
  exists (rev l). unfold rstrip. split.
  - rewrite <- rev_app_distr, <- Hs. symmetry. apply rev_involutive.
  - now rewrite forallb_rev.
Qed.

(** What is left starts, and ends, with a code point that is not
    whitespace. *)
Lemma lstrip_head (s : str) (c : N) :
  head (lstrip s) = Some c -> isspace c = false.
Proof.
  induction s as [|a s IH]; simpl; [discriminate|].
  destruct (isspace a) eqn:Ha; [exact IH|].
  simpl. now intros [= <-].
Qed.

Lemma rstrip_last (s : str) (c : N) :
  last (rstrip s) = Some c -> isspace c = false.
Proof. unfold rstrip. rewrite last_rev. apply lstrip_head. Qed.

Lemma rstrip_head (s : str) (c : N) :
  head s = Some c -> isspace c = false -> head (rstrip s) = Some c.
Proof.
  intros Hs Hc. destruct (rstrip_split s) as (r & Hr & Hsp).
  destruct (rstrip s) as [|c' m] eqn:E.
  - simpl in Hr. subst r. destruct s as [|a s]; [discriminate|].
    simpl in Hs, Hsp. injection Hs as ->. now rewrite Hc in Hsp.
  - rewrite Hr in Hs. exact Hs.
Qed.

Lemma lstrip_nil_iff (s : str) : lstrip s = [] <-> forallb isspace s = true.
Proof.
  induction s as [|c s IH]; simpl; [tauto|].
  destruct (isspace c); simpl; [exact IH|]. split; discriminate.
Qed.

Lemma strip_trimmed (s : str) : trimmed (strip s) = true.
Proof.
  unfold trimmed, strip. apply andb_true_iff. split.
  - destruct (lstrip s) as [|c u] eqn:E; [reflexivity|].
    assert (Hc : isspace c = false) by (apply (lstrip_head s); now rewrite E).
    pose proof (rstrip_head (c :: u) c eq_refl Hc) as Hh.
    destruct (rstrip (c :: u)); [discriminate|].
    injection Hh as ->. now rewrite Hc.
  - destruct (last (rstrip (lstrip s))) as [c|] eqn:E; [|reflexivity].
    now rewrite (rstrip_last _ _ E).
Qed.

Lemma strip_split (s : str) :
  exists l r, s = l ++ strip s ++ r
              /\ forallb isspace l = true /\ forallb isspace r = true.
Proof.
  destruct (lstrip_split s) as (l & Hs & Hl).
  destruct (rstrip_split (lstrip s)) as (r & Hr & Hsp).
  exists l, r. unfold strip. now rewrite <- Hr.
Qed.

Lemma strip_nil_iff (s : str) : strip s = [] <-> forallb isspace s = true.
Proof.
  rewrite <- lstrip_nil_iff. unfold strip. split.
  - intros H. destruct (lstrip s) as [|c u] eqn:E; [reflexivity|].
    assert (Hc : isspace c = false) by (apply (lstrip_head s); now rewrite E).
    pose proof (rstrip_head (c :: u) c eq_refl Hc) as Hh.
    rewrite H in Hh. discriminate.
  - intros ->. reflexivity.
Qed.

Context {R : Runtime}.

(** C8. With both options off, or absent as in the call
    [preprocess_text(t, **{})], [preprocess_text] is [strip]: the text is
    returned without the whitespace at its two ends and otherwise unchanged;
    an empty or whitespace-only text gives the empty string; and whichever
    options are set, the result has no whitespace at either end. *)
Theorem preprocess_text_defaults (t : str) :
  preprocess_text t false false = strip t /\
  (forall w, preprocess_text_kwargs t ∅ w = (inr (strip t), w)) /\
  (exists l r, t = l ++ preprocess_text t false false ++ r
               /\ forallb isspace l = true /\ forallb isspace r = true) /\
  (forallb isspace t = true <-> preprocess_text t false false = []) /\
  (forall lowercase remove_punctuation,
     trimmed (preprocess_text t lowercase remove_punctuation) = true).
Proof.
  repeat split.
  - apply strip_split.
  - apply strip_nil_iff.
  - apply strip_nil_iff.
  - intros lowercase remove_punctuation. apply strip_trimmed.
Qed.

(** Each option on its own, and both, on the small runtime. *)
Example preprocess_text_options :
  preprocess_text (R := Demo.runtime) (lit "  Hello, World!  ") false false
    = lit "Hello, World!" /\
  preprocess_text (R := Demo.runtime) (lit "  Hello, World!  ") true false
    = lit "hello, world!" /\
  preprocess_text (R := Demo.runtime) (lit "  Hello, World!  ") false true
    = lit "Hello World" /\
  preprocess_text (R := Demo.runtime) (lit " ?! ") true true = [].
Proof. repeat split. Qed.

End Strip.

(** ** The batch loop *)

Section Batch.

Context {R : Runtime}.

(** Unfolds one run of a pipeline into the case analysis on its library
    calls. *)
Ltac run := unfold bind, call, getitem, time_time, ret, raise in *; simpl in *.

(** The outcome of the loop body. *)
Lemma batch_body_result (model : SentenceTransformer)
    (results : list BatchItemResult) (i : Z) (p : str * str) (w : world) :
  (batch_body model results i p w).1 =
  if nonblank p then
    match pair_score model p with
    | inl e => inl e
    | inr score =>
        inr (results ++
             [ {| pair_id := i + 1;
                  text1 := preview p.1;
                  text2 := preview p.2;
                  similarity_score := score;
                  similarity_percentage := (score * 100)%float;
                  interpretation := get_similarity_interpretation score;
                  processing_time :=
                    (clock_reading (S (clock_reads w))
                     - clock_reading (clock_reads w))%float |} ])
    end
  else
    inr (results ++
         [ {| pair_id := i + 1;
              text1 := preview p.1;
              text2 := preview p.2;
              similarity_score := 0.0%float;
              similarity_percentage := 0.0%float;
              interpretation := lit "Empty text detected";
              processing_time := 0.0%float |} ]).
Proof.
  destruct p as [t1 t2]. unfold batch_body, nonblank, pair_score. simpl.
  destruct (truthy (strip t1) && truthy (strip t2)); [|reflexivity].
  run.
  destruct (encode model [t1; t2]) as [e|embeddings]; [reflexivity|].
  destruct (embeddings !! 0%nat) as [e0|]; [|destruct (embeddings !! 1%nat); reflexivity].
  simpl. destruct (embeddings !! 1%nat) as [e1|]; [|reflexivity].
  simpl. destruct (cosine_similarity [e0] [e1]) as [e|sm]; [reflexivity|].
  destruct (sm !! 0%nat) as [row|]; [|reflexivity].
  simpl. destruct (row !! 0%nat) as [score|]; reflexivity.
Qed.

(** A body that returns has appended the item of its pair. *)
Lemma batch_body_returns model results i p w rs w' :
  batch_body model results i p w = (inr rs, w') ->
  exists r, rs = results ++ [r] /\ item_of model i p r.
Proof.
  intros H. pose proof (batch_body_result model results i p w) as Hr.
  rewrite H in Hr. simpl in Hr. unfold item_of.
  destruct (nonblank p).
  - destruct (pair_score model p) as [e|score]; [discriminate|].
    injection Hr as ->. eexists. split; [reflexivity|]. simpl. now repeat split.
  - injection Hr as ->. eexists. split; [reflexivity|]. simpl. now repeat split.
Qed.

(** A body that raises does so in the embedding or the scoring of its
    pair. *)
Lemma batch_body_raises model results i p w e w' :
  batch_body model results i p w = (inl e, w') ->
  nonblank p = true /\ pair_score model p = inl e.
Proof.
  intros H. pose proof (batch_body_result model results i p w) as Hr.
  rewrite H in Hr. simpl in Hr.
  destruct (nonblank p); [|discriminate].
  destruct (pair_score model p); [|discriminate].
  now injection Hr as ->.
Qed.

Lemma batch_body_outcome model results i p w :
  match batch_body model results i p w with
  | (inl e, _) => pair_raises model p = true
  | (inr _, _) => pair_raises model p = false
  end.
Proof.
  pose proof (batch_body_result model results i p w) as Hr.
  unfold pair_raises.
  destruct (batch_body model results i p w) as [[e|rs] w']; simpl in Hr;
    destruct (nonblank p); try discriminate; try reflexivity;
    destruct (pair_score model p); try discriminate; reflexivity.
Qed.

(** The loop over a concatenation: the second part runs only if the first
    returned. *)
Lemma for_enumerate_app {A S} (body : S -> Z -> A -> M S) (xs ys : list A) :
  forall i s w,
    for_enumerate body i (xs ++ ys) s w =
    match for_enumerate body i xs s w with
    | (inl e, w') => (inl e, w')
    | (inr s', w') => for_enumerate body (i + Z.of_nat (length xs)) ys s' w'
    end.
Proof.
  induction xs as [|x xs IH]; intros i s w; simpl.
  - unfold ret. now rewrite Z.add_0_r.
  - unfold bind. destruct (body s i x w) as [[e|s'] w']; [reflexivity|].
    rewrite IH. now replace (i + 1 + Z.of_nat (length xs))
      with (i + Z.pos (Pos.of_succ_nat (length xs))) by lia.
Qed.

(** A loop that returns has appended one item per pair, in order. *)
Lemma loop_returns model (pairs : list (str * str)) :
  forall i results w rs w',
    for_enumerate (batch_body model) i pairs results w = (inr rs, w') ->
    exists items,
      rs = results ++ items /\ length items = length pairs /\
      forall k p, pairs !! k = Some p ->
        exists r, items !! k = Some r /\ item_of model (i + Z.of_nat k) p r.
Proof.
  induction pairs as [|p pairs IH]; intros i results w rs w' H; simpl in H.
  - injection H as <- <-. exists []. rewrite app_nil_r.
    repeat split. intros k q Hq. discriminate.
  - unfold bind in H.
    destruct (batch_body model results i p w) as [[e|rs1] w1] eqn:Hb; [discriminate|].
    apply batch_body_returns in Hb as (r & -> & Hr).
    apply IH in H as (items & -> & Hlen & Hitems).
    exists (r :: items). rewrite <- app_assoc. simpl.
    repeat split; [now f_equal|].
    intros [|k] q Hq; simpl in Hq.
    + injection Hq as <-. exists r. rewrite Z.add_0_r. now split.
    + destruct (Hitems k q Hq) as (r' & Hk & Hr').
      exists r'. split; [exact Hk|].
      now replace (i + Z.of_nat (S k)) with (i + 1 + Z.of_nat k) by lia.
Qed.

(** A loop that raises met a pair that raises, its first. *)
Lemma loop_raises model (pairs : list (str * str)) :
  forall i results w e w',
    for_enumerate (batch_body model) i pairs results w = (inl e, w') ->
    exists k p,
      pairs !! k = Some p /\ nonblank p = true /\ pair_score model p = inl e /\
      forall j q, (j < k)%nat -> pairs !! j = Some q -> pair_raises model q = false.
Proof.
  induction pairs as [|p pairs IH]; intros i results w e w' H; simpl in H.
  - discriminate.
  - unfold bind in H.
    pose proof (batch_body_outcome model results i p w) as Ho.
    destruct (batch_body model results i p w) as [[e1|rs1] w1] eqn:Hb.
    + injection H as <- <-. apply batch_body_raises in Hb as [Hn Hs].
      exists 0%nat, p. repeat split; try assumption. intros j q Hj. lia.
    + apply IH in H as (k & q & Hk & Hn & Hs & Hbefore).
      exists (S k), q. repeat split; try assumption.
      intros [|j] q' Hj Hq'; simpl in Hq'.
      * now injection Hq' as <-.
      * apply (Hbefore j); [lia | exact Hq'].
Qed.

(** A loop over pairs none of which raises returns. *)
Lemma loop_total model (pairs : list (str * str)) :
  (forall p, In p pairs -> pair_raises model p = false) ->
  forall i results w,
    exists rs w', for_enumerate (batch_body model) i pairs results w = (inr rs, w').
Proof.
  induction pairs as [|p pairs IH]; intros Hok i results w; simpl.
  - now exists results, w.
  - unfold bind.
    pose proof (batch_body_outcome model results i p w) as Ho.
    destruct (batch_body model results i p w) as [[e1|rs1] w1].
    + rewrite (Hok p) in Ho; [discriminate | now left].
    + apply IH. intros q Hq. apply Hok. now right.
Qed.

End Batch.

(** ** The two pipelines *)

Section Pipelines.

Context {R : Runtime}.

Ltac run := unfold bind, call, getitem, time_time, ret, raise in *; simpl in *.

Lemma preview_spec (t : str) : preview_of t (preview t).
Proof.
  unfold preview_of, preview, len, slice_to.
  destruct (100 <? Z.of_nat (length t)) eqn:E.
  - apply Z.ltb_lt in E.
    assert (Hl : length (take 100 t ++ lit "...") = 103%nat).
    { rewrite length_app, length_take. change (length (lit "...")) with 3%nat. lia. }
    repeat split; intros; try lia; try assumption; reflexivity.
  - apply Z.ltb_ge in E. repeat split; intros; try lia; reflexivity.
Qed.

(** A batch call that returns went through the loop with the loaded
    model. *)
Lemma batch_returns_inv pairs model_name w results w' :
  calculate_batch_similarity pairs model_name w = (inr results, w') ->
  exists model,
    sentence_transformer model_name = inr model /\
    length results = length pairs /\
    forall k p, pairs !! k = Some p ->
      exists r, results !! k = Some r /\ item_of model (Z.of_nat k) p r.
Proof.
  unfold calculate_batch_similarity, load_model. run.
  destruct (sentence_transformer model_name) as [e|model]; [discriminate|].
  intros H. apply loop_returns in H as (items & -> & Hlen & Hitems).
  exists model. repeat split; assumption.
Qed.

(** A single-pair call without options that returns on two non-blank texts
    returns the score of the raw pair under the loaded model. *)
Lemma single_returns_inv t1 t2 model_name opts w s pt interp ti w' :
  nonblank (t1, t2) = true -> opts = None \/ opts = Some ∅ ->
  calculate_similarity t1 t2 model_name opts w = (inr (s, pt, interp, ti), w') ->
  exists model,
    sentence_transformer model_name = inr model /\
    pair_score model (t1, t2) = inr s /\
    interp = get_similarity_interpretation s.
Proof.
  unfold nonblank, calculate_similarity, load_model. simpl.
  intros Hn Hopts.
  rewrite <- negb_andb, Hn. simpl.
  assert (Htexts :
    match opts with
    | Some kwargs =>
        if bool_decide (kwargs ≠ ∅) then
          (text1 <- preprocess_text_kwargs t1 kwargs;;
           text2 <- preprocess_text_kwargs t2 kwargs;;
           ret (text1, text2))
        else ret (t1, t2)
    | None => ret (t1, t2)
    end = ret (t1, t2)).
  { destruct Hopts as [-> | ->]; [reflexivity|].
    rewrite bool_decide_eq_false_2; [reflexivity | intros H; now apply H]. }
  unfold bind at 1. unfold time_time at 1. unfold bind at 1.
  rewrite Htexts. clear Htexts. run.
  destruct (sentence_transformer model_name) as [e|model]; [discriminate|].
  destruct (tokenizer_encode model t1) as [e|tokens1]; [discriminate|].
  destruct (tokenizer_encode model t2) as [e|tokens2]; [discriminate|].
  destruct (get_max_seq_length model) as [e|max_seq_length]; [discriminate|].
  destruct (encode model [t1; t2]) as [e|embeddings] eqn:E1; [discriminate|].
  destruct (embeddings !! 0%nat) as [e0|] eqn:E2; [|discriminate].
  simpl. destruct (embeddings !! 1%nat) as [e1|] eqn:E3; [|discriminate].
  simpl. destruct (cosine_similarity [e0] [e1]) as [e|sm] eqn:E4; [discriminate|].
  destruct (sm !! 0%nat) as [row|] eqn:E5; [|discriminate].
  simpl. destruct (row !! 0%nat) as [score|] eqn:E6; [|discriminate].
  simpl. intros [= <- <- <- <- <-]. exists model.
  unfold pair_score. simpl. rewrite E1, E2, E3, E4, E5, E6. now repeat split.
Qed.

Lemma truthy_strip (t : str) : strip t <> [] -> truthy (strip t) = true.
Proof. now destruct (strip t). Qed.

(** C3. If either raw text is empty after trimming, the single-pair pipeline
    returns at once: score 0.0, processing time 0.0, the interpretation
    "Empty text detected" and an empty [token_info]; the world is the one it
    started in, so no model was loaded, nothing was tokenized or embedded and
    the clock was not read; and this holds for every model name and every
    options value, so nothing is raised. *)
Theorem empty_text_fast_path (t1 t2 model_name : str)
    (opts : option (gmap str bool)) (w : world) :
  strip t1 = [] \/ strip t2 = [] ->
  calculate_similarity t1 t2 model_name opts w
  = (inr (0.0%float, 0.0%float, lit "Empty text detected", ∅), w).
Proof.
  unfold calculate_similarity. intros [-> | ->]; simpl.
  - reflexivity.
  - now rewrite orb_true_r.
Qed.

(** C4. Whatever the pairs (the empty sequence included), a batch call
    either returns a sequence of results as long as the input, whose [k]-th
    result belongs to the [k]-th pair and has [pair_id] [k + 1], so that the
    [pair_id]s are pairwise different; or it raises what a library raised:
    the loading of the model or the embedding or scoring of some pair. *)
Theorem batch_length_and_pair_ids (pairs : list (str * str))
    (model_name : str) (w : world) :
  match calculate_batch_similarity pairs model_name w with
  | (inr results, _) =>
      length results = length pairs /\
      (forall k p, pairs !! k = Some p ->
         exists r, results !! k = Some r /\ pair_id r = Z.of_nat k + 1 /\
                   text1 r = preview p.1 /\ text2 r = preview p.2) /\
      NoDup (pair_id <$> results)
  | (inl e, _) =>
      sentence_transformer model_name = inl e \/
      exists model p,
        sentence_transformer model_name = inr model /\ p ∈ pairs /\
        nonblank p = true /\ pair_score model p = inl e
  end.
Proof.
  destruct (calculate_batch_similarity pairs model_name w) as [[e|results] w'] eqn:H.
  - unfold calculate_batch_similarity, load_model in H. run.
    destruct (sentence_transformer model_name) as [e'|model].
    + left. now injection H as ->.
    + right. apply loop_raises in H as (k & p & Hk & Hn & Hs & _).
      exists model, p. repeat split; try assumption.
      now apply list_elem_of_lookup_2 in Hk.
  - apply batch_returns_inv in H as (model & _ & Hlen & Hitems).
    assert (Hids : forall k r, results !! k = Some r -> pair_id r = Z.of_nat k + 1).
    { intros k r Hr.
      destruct (pairs !! k) as [p|] eqn:Hp.
      - destruct (Hitems k p Hp) as (r' & Hr' & Hid & _).
        rewrite Hr in Hr'. now injection Hr' as ->.
      - apply lookup_ge_None in Hp. apply lookup_lt_Some in Hr. lia. }
    repeat split; [exact Hlen | |].
    + intros k p Hp. destruct (Hitems k p Hp) as (r & Hr & Hid & Ht1 & Ht2 & _).
      exists r. now repeat split.
    + apply NoDup_alt. intros i j x Hi Hj.
      rewrite list_lookup_fmap in Hi, Hj.
      destruct (results !! i) as [ri|] eqn:Ei; [|discriminate].
      destruct (results !! j) as [rj|] eqn:Ej; [|discriminate].
      apply Hids in Ei, Ej. simpl in Hi, Hj. injection Hi as <-. injection Hj as Hj. lia.
Qed.

(** C5, as the code has it.  In the results of a batch call the previews of
    the [k]-th pair are: for a text of more than 100 code points its first
    100 code points followed by three dots, 103 code points in all; for a
    text of at most 100 code points the text itself.  A preview is thus at
    most 103 code points long. *)
Theorem batch_previews (pairs : list (str * str)) (model_name : str)
    (w w' : world) (results : list BatchItemResult)
    (k : nat) (p : str * str) (r : BatchItemResult) :
  calculate_batch_similarity pairs model_name w = (inr results, w') ->
  pairs !! k = Some p -> results !! k = Some r ->
  preview_of p.1 (text1 r) /\ preview_of p.2 (text2 r).
Proof.
  intros H Hp Hr. apply batch_returns_inv in H as (model & _ & _ & Hitems).
  destruct (Hitems k p Hp) as (r' & Hr' & _ & Ht1 & Ht2 & _).
  rewrite Hr in Hr'. injection Hr' as <-.
  rewrite Ht1, Ht2. split; apply preview_spec.
Qed.

(** C1, as the code has it.  The loop has no handler: when the embedding or
    the scoring of a pair raises and no pair before it did, the batch call
    raises that error and returns no result for any pair; the pairs after it
    are not processed, the call ends exactly as if the failing pair were the
    last one. *)
Theorem failing_pair_aborts_batch (model_name : str)
    (model : SentenceTransformer) (before after : list (str * str))
    (p : str * str) (e : exn) (w : world) :
  sentence_transformer model_name = inr model ->
  (forall q, q ∈ before -> pair_raises model q = false) ->
  nonblank p = true -> pair_score model p = inl e ->
  (calculate_batch_similarity (before ++ p :: after) model_name w).1 = inl e /\
  calculate_batch_similarity (before ++ p :: after) model_name w
  = calculate_batch_similarity (before ++ [p]) model_name w.
Proof.
  intros Hm Hbefore Hn Hs.
  unfold calculate_batch_similarity, load_model. run. rewrite Hm.
  rewrite !for_enumerate_app.
  set (w0 := World (trace w ++ [LoadModel model_name]) (clock_reads w)).
  destruct (loop_total model before) with (i := 0) (results := @nil BatchItemResult) (w := w0)
    as (rs & w1 & ->).
  { intros q Hq. apply Hbefore. now apply list_elem_of_In. }
  simpl. unfold bind.
  pose proof (batch_body_outcome model rs (0 + Z.of_nat (length before)) p w1) as Ho.
  destruct (batch_body model rs (0 + Z.of_nat (length before)) p w1)
    as [[e'|rs'] w2] eqn:Hb.
  - apply batch_body_raises in Hb as [_ He]. rewrite Hs in He.
    injection He as <-. now split.
  - unfold pair_raises in Ho. rewrite Hn, Hs in Ho. discriminate.
Qed.

(** C6, as the code has it.  The module keeps no set of known identifiers
    and has no error of its own for an unknown one: a name is handed to the
    constructor of the model as it is.  If the constructor raises for the
    name, that error reaches the caller unchanged: a batch call raises it
    with nothing but the load recorded, whatever the pairs; a single-pair
    call on two texts that are non-empty after trimming raises it after one
    clock reading, with nothing tokenized or embedded; and a single-pair call
    with a text that is empty after trimming returns the empty-text result
    without asking for the model. *)
Theorem load_failure_propagates (model_name : str) (e : exn) :
  sentence_transformer model_name = inl e ->
  (forall pairs w,
     calculate_batch_similarity pairs model_name w
     = (inl e, World (trace w ++ [LoadModel model_name]) (clock_reads w))) /\
  (forall t1 t2 opts w,
     nonblank (t1, t2) = true -> options_accepted opts ->
     calculate_similarity t1 t2 model_name opts w
     = (inl e, World (trace w ++ [LoadModel model_name]) (S (clock_reads w)))) /\
  (forall t1 t2 opts w,
     nonblank (t1, t2) = false ->
     calculate_similarity t1 t2 model_name opts w
     = (inr (0.0%float, 0.0%float, lit "Empty text detected", ∅), w)).
Proof.
  intros Hm. repeat split.
  - intros pairs w. unfold calculate_batch_similarity, load_model. run.
    now rewrite Hm.
  - intros t1 t2 opts w Hn Hopts.
    unfold nonblank in Hn. simpl in Hn.
    unfold calculate_similarity, load_model.
    rewrite <- negb_andb, Hn. simpl.
    destruct opts as [kwargs|]; simpl in Hopts.
    + destruct (bool_decide (kwargs ≠ ∅)).
      * unfold preprocess_text_kwargs. rewrite bool_decide_eq_true_2 by exact Hopts.
        run. now rewrite Hm.
      * run. now rewrite Hm.
    + run. now rewrite Hm.
  - intros t1 t2 opts w Hn.
    unfold nonblank in Hn. simpl in Hn.
    unfold calculate_similarity. now rewrite <- negb_andb, Hn.
Qed.

End Pipelines.

(** ** The pipelines on the small runtime *)

Section Runs.

Import Demo.

Lemma cat_batch_run_eq :
  calculate_batch_similarity (R := runtime)
    [(lit "a", lit "a"); (lit "a cat", lit "a dog")] offered_model world0
  = cat_batch_run.
Proof. vm_compute. reflexivity. Qed.

Lemma cat_single_run_eq :
  calculate_similarity (R := runtime) (lit "a cat") (lit "a dog") offered_model None world0
  = cat_single_run.
Proof. vm_compute. reflexivity. Qed.

(** The specification's scenario: a batch of two pairs, the second with
    an empty text. *)
Example batch_scenario :
  exists r1 r2 w',
    calculate_batch_similarity (R := runtime)
      [(lit "a", lit "a"); (lit "", lit "b")] offered_model world0
    = (inr [r1; r2], w') /\
    pair_id r1 = 1 /\ pair_id r2 = 2 /\
    interpretation r1 = lit "Very Similar" /\
    interpretation r2 = lit "Empty text detected" /\
    similarity_score r2 = 0.0%float.
Proof. do 3 eexists. split; [vm_compute; reflexivity|]. now repeat split. Qed.

(** The empty batch gives the empty result. *)
Example batch_empty :
  (calculate_batch_similarity (R := runtime) [] offered_model world0).1 = inr [].
Proof. reflexivity. Qed.

(** With a dictionary that sets both options to [False] the single-pair
    pipeline still trims the texts before it embeds them; the batch pipeline
    embeds them as they are. *)
Example explicit_false_options_trim :
  exists out w',
    calculate_similarity (R := runtime) (lit " a") (lit "b") offered_model
      (Some {[ lit "lowercase" := false; lit "remove_punctuation" := false ]}) world0
    = (inr out, w') /\
    trace w' = [ LoadModel offered_model; TokenizerEncode (lit "a");
                 TokenizerEncode (lit "b"); GetMaxSeqLength;
                 Encode [lit "a"; lit "b"];
                 CosineSimilarity [embed (lit "a")] [embed (lit "b")] ].
Proof. do 2 eexists. split; vm_compute; reflexivity. Qed.

End Runs.

(** ** The theorems at concrete inputs *)

(** C3 at the specification's scenario, an empty text against "hello",
    with a model name the hub does not even know. *)
Lemma empty_text_fast_path_witness :
  (strip (lit "") = [] \/ strip (lit "hello") = []) /\
  calculate_similarity (R := Demo.runtime) (lit "") (lit "hello")
    Demo.unknown_model None world0
  = (inr (0.0%float, 0.0%float, lit "Empty text detected", ∅), world0).
Proof.
  split.
  - left. reflexivity.
  - apply (@empty_text_fast_path Demo.runtime). left. reflexivity.
Defined.

(** C5 at a text of 101 code points. *)
Lemma batch_previews_witness :
  preview_of Demo.long_text (text1 Demo.long_item) /\
  preview_of (lit "b") (text2 Demo.long_item).
Proof.
  apply (@batch_previews Demo.runtime [(Demo.long_text, lit "b")]
           Demo.offered_model world0 Demo.long_run.2 [Demo.long_item] 0
           (Demo.long_text, lit "b") Demo.long_item).
  - vm_compute. reflexivity.
  - reflexivity.
  - reflexivity.
Defined.

(** C1 at five pairs whose third the encoder refuses. *)
Lemma failing_pair_aborts_batch_witness :
  (calculate_batch_similarity (R := Demo.runtime) Demo.five_pairs
     Demo.offered_model world0).1 = inl Demo.null_error /\
  calculate_batch_similarity (R := Demo.runtime) Demo.five_pairs Demo.offered_model world0
  = calculate_batch_similarity (R := Demo.runtime)
      [(lit "a", lit "a"); (lit "a cat", lit "a dog"); ([0%N], lit "x")]
      Demo.offered_model world0.
Proof.
  apply (@failing_pair_aborts_batch Demo.runtime Demo.offered_model Demo.toy_model
           [(lit "a", lit "a"); (lit "a cat", lit "a dog")]
           [(lit "banana", lit "b"); (lit " ", lit "b")]
           ([0%N], lit "x") Demo.null_error world0).
  - vm_compute. reflexivity.
  - intros q Hq.
    apply elem_of_cons in Hq as [-> | Hq]; [vm_compute; reflexivity|].
    apply elem_of_cons in Hq as [-> | Hq]; [vm_compute; reflexivity|].
    now apply elem_of_nil in Hq.
  - vm_compute. reflexivity.
  - vm_compute. reflexivity.
Defined.

(** C6 at a name the hub refuses. *)
Lemma load_failure_propagates_witness :
  sentence_transformer (Runtime := Demo.runtime) Demo.unknown_model = inl Demo.hub_error /\
  (calculate_batch_similarity (R := Demo.runtime) Demo.five_pairs
     Demo.unknown_model world0
   = (inl Demo.hub_error, World [LoadModel Demo.unknown_model] 0)) /\
  (calculate_similarity (R := Demo.runtime) (lit "a cat") (lit "a dog")
     Demo.unknown_model None world0
   = (inl Demo.hub_error, World [LoadModel Demo.unknown_model] 1)).
Proof.
  assert (H : sentence_transformer (Runtime := Demo.runtime) Demo.unknown_model
              = inl Demo.hub_error) by (vm_compute; reflexivity).
  destruct (@load_failure_propagates Demo.runtime Demo.unknown_model Demo.hub_error H)
    as (Hbatch & Hsingle & _).
  split; [exact H|]. split.
  - apply Hbatch.
  - apply (Hsingle (lit "a cat") (lit "a dog") None world0); [reflexivity | exact I].
Defined.

(** ** Where the code departs from a claim as it is stated *)

(** C1 as stated fails: pair 3 of 5 raises in the encoder and no other pair
    does; the batch call raises [ValueError] instead of returning five
    results. *)
Lemma batch_stops_at_failing_pair :
  pair_raises (R := Demo.runtime) Demo.toy_model <$> Demo.five_pairs
  = [false; false; true; false; false] /\
  (calculate_batch_similarity (R := Demo.runtime) Demo.five_pairs
     Demo.offered_model world0).1 = inl Demo.null_error /\
  ~ exists results w',
      calculate_batch_similarity (R := Demo.runtime) Demo.five_pairs
        Demo.offered_model world0 = (inr results, w').
Proof.
  split; [vm_compute; reflexivity|].
  split; [vm_compute; reflexivity|].
  intros (results & w' & H). vm_compute in H. discriminate H.
Qed.

(** C5 as stated fails: a text of 101 code points has a preview of 103. *)
Lemma preview_exceeds_100 :
  length Demo.long_text = 101%nat /\
  calculate_batch_similarity (R := Demo.runtime) [(Demo.long_text, lit "b")]
    Demo.offered_model world0 = (inr [Demo.long_item], Demo.long_run.2) /\
  length (text1 Demo.long_item) = 103%nat /\
  ~ (length (text1 Demo.long_item) <= 100)%nat.
Proof.
  split; [reflexivity|]. split; [vm_compute; reflexivity|].
  split; [reflexivity|]. vm_compute. lia.
Qed.

(** C6 as stated fails: a name outside the five offered ones that the hub
    knows is loaded and used like any other; and with a name the hub refuses,
    the single-pair pipeline still returns when a text is empty. *)
Lemma unknown_model_not_rejected :
  (Demo.other_model ∉ get_available_models) /\
  (exists r w',
     calculate_batch_similarity (R := Demo.runtime) [(lit "a", lit "a")]
       Demo.other_model world0 = (inr [r], w')) /\
  (exists out w',
     calculate_similarity (R := Demo.runtime) (lit "a") (lit "a")
       Demo.other_model None world0 = (inr out, w')) /\
  (Demo.unknown_model ∉ get_available_models) /\
  sentence_transformer (Runtime := Demo.runtime) Demo.unknown_model = inl Demo.hub_error /\
  calculate_similarity (R := Demo.runtime) (lit "") (lit "hello")
    Demo.unknown_model None world0
  = (inr (0.0%float, 0.0%float, lit "Empty text detected", ∅), world0).
Proof.
  split; [apply (bool_decide_eq_false_1 _); vm_compute; reflexivity|].
  split; [do 2 eexists; vm_compute; reflexivity|].
  split; [do 2 eexists; vm_compute; reflexivity|].
  split; [apply (bool_decide_eq_false_1 _); vm_compute; reflexivity|].
  split; [vm_compute; reflexivity|].
  reflexivity.
Qed.

(** * Further properties of the code *)

(** ** The text normalizer *)

Section Normalizer.

Lemma lstrip_fixed (s : str) :
  match s with [] => true | c :: _ => negb (isspace c) end = true -> lstrip s = s.
Proof.
  destruct s as [|c s]; simpl; [reflexivity|].
  now destruct (isspace c).
Qed.

Lemma head_rev {A} (l : list A) : head (rev l) = last l.
Proof. rewrite <- (rev_involutive l) at 2. symmetry. apply last_rev. Qed.

Lemma trimmed_strip (s : str) : trimmed s = true -> strip s = s.
Proof.
  unfold trimmed, strip, rstrip. intros [Hh Hl]%andb_true_iff.
  rewrite (lstrip_fixed s Hh).
  rewrite lstrip_fixed; [apply rev_involutive|].
  rewrite <- head_rev in Hl. now destruct (rev s).
Qed.

(** Trimming twice is trimming once. *)
Lemma strip_idempotent (s : str) : strip (strip s) = strip s.
Proof. apply trimmed_strip, strip_trimmed. Qed.

Lemma strip_sublist (s : str) : strip s `sublist_of` s.
Proof.
  destruct (strip_split s) as (l & r & Hs & _). rewrite Hs at 2.
  apply sublist_inserts_l, sublist_inserts_r. reflexivity.
Qed.

Lemma filter_sublist {A} (f : A -> bool) (l : list A) : List.filter f l `sublist_of` l.
Proof.
  induction l as [|a l IH]; simpl; [constructor|].
  destruct (f a); now constructor.
Qed.

Lemma filter_fixed {A} (f : A -> bool) (l : list A) :
  (forall a, a ∈ l -> f a = true) -> List.filter f l = l.
Proof.
  induction l as [|a l IH]; intros H; simpl; [reflexivity|].
  rewrite (H a) by left. f_equal. apply IH. intros b Hb. apply H. now right.
Qed.

Lemma translate_delete_kept (d s : str) (c : N) :
  c ∈ translate_delete d s <-> c ∈ s /\ c ∉ d.
Proof.
  unfold translate_delete. rewrite !list_elem_of_In, filter_In, <- !list_elem_of_In.
  rewrite negb_true_iff, bool_decide_eq_false. reflexivity.
Qed.

(** The code points [string.punctuation] holds. *)
Lemma punctuation_ranges (c : N) :
  c ∈ punctuation <->
  (33 <= c <= 47 \/ 58 <= c <= 64 \/ 91 <= c <= 96 \/ 123 <= c <= 126)%N.
Proof.
  unfold punctuation. rewrite list_elem_of_In, in_map_iff. split.
  - intros (n & <- & Hn). rewrite !in_app_iff, !in_seq in Hn. lia.
  - intros H. exists (N.to_nat c). split; [apply N2Nat.id|].
    rewrite !in_app_iff, !in_seq. lia.
Qed.

(** Trimming keeps every code point that is not whitespace. *)
Lemma strip_kept (s : str) (c : N) :
  c ∈ s -> isspace c = false -> c ∈ strip s.
Proof.
  intros Hc Hsp. destruct (strip_split s) as (l & r & Hs & Hl & Hr).
  rewrite Hs in Hc. rewrite !elem_of_app in Hc.
  destruct Hc as [Hc | [Hc | Hc]]; [|exact Hc|].
  - rewrite forallb_forall in Hl. apply list_elem_of_In, Hl in Hc. congruence.
  - rewrite forallb_forall in Hr. apply list_elem_of_In, Hr in Hc. congruence.
Qed.

Context {R : Runtime}.

(** X1. With [lowercase] off, normalizing a normalized text changes
    nothing: [preprocess_text] is idempotent for either value of
    [remove_punctuation]. *)
Theorem preprocess_text_idempotent (t : str) (remove_punctuation : bool) :
  preprocess_text (preprocess_text t false remove_punctuation) false remove_punctuation
  = preprocess_text t false remove_punctuation.
Proof.
  unfold preprocess_text. destruct remove_punctuation; [|apply strip_idempotent].
  set (x := translate_delete punctuation t).
  replace (translate_delete punctuation (strip x)) with (strip x);
    [apply strip_idempotent|].
  symmetry. apply filter_fixed. intros c Hc.
  assert (Hx : c ∈ x) by (eapply elem_of_sublist; [exact Hc | apply strip_sublist]).
  apply translate_delete_kept in Hx as [_ Hx].
  now rewrite negb_true_iff, bool_decide_eq_false.
Qed.

(** X2. Normalizing only deletes: the result is the (lowercased, when asked)
    text with some code points left out, in the same order.  With
    [remove_punctuation] on, the result holds none of the 32 ASCII
    punctuation characters, and every code point of the text that is neither
    whitespace nor punctuation is still in it. *)
Theorem preprocess_text_deletes_only (t : str) (lowercase : bool) :
  let source := if lowercase then str_lower t else t in
  (forall remove_punctuation,
     preprocess_text t lowercase remove_punctuation `sublist_of` source) /\
  (forall c, c ∈ preprocess_text t lowercase true ->
     ~ (33 <= c <= 47 \/ 58 <= c <= 64 \/ 91 <= c <= 96 \/ 123 <= c <= 126)%N) /\
  (forall c, c ∈ source -> isspace c = false ->
     ~ (33 <= c <= 47 \/ 58 <= c <= 64 \/ 91 <= c <= 96 \/ 123 <= c <= 126)%N ->
     c ∈ preprocess_text t lowercase true).
Proof.
  unfold preprocess_text. simpl. repeat split.
  - intros remove_punctuation. etransitivity; [apply strip_sublist|].
    destruct remove_punctuation; [apply filter_sublist | reflexivity].
  - intros c Hc. rewrite <- punctuation_ranges.
    assert (Hx : c ∈ translate_delete punctuation (if lowercase then str_lower t else t))
      by (eapply elem_of_sublist; [exact Hc | apply strip_sublist]).
    now apply translate_delete_kept in Hx as [_ Hx].
  - intros c Hc Hsp Hp. rewrite <- punctuation_ranges in Hp.
    apply strip_kept; [|exact Hsp]. now apply translate_delete_kept.
Qed.

End Normalizer.

(** ** The classifier, continued *)

Section ClassifierOrder.

Import FloatOrder.

Ltac literal_clash :=
  match goal with
  | H : lit _ = lit _ |- _ => vm_compute in H; discriminate H
  end.

Lemma SFltb_leb_trans (x y z : spec_float) :
  SFltb x y = true -> SFleb y z = true -> SFltb x z = true.
Proof.
  unfold SFltb, SFleb.
  destruct x as [sx|sx| |sx mx ex], y as [sy|sy| |sy my ey],
           z as [sz|sz| |sz mz ez]; simpl; try discriminate;
    try (destruct sx; try discriminate); try (destruct sy; try discriminate);
    try (destruct sz; try discriminate); try reflexivity.
  all: rewrite ?Pos.compare_cont_spec; simpl.
  all: destruct (Z.compare_spec ex ey); try discriminate;
       destruct (Z.compare_spec ey ez); try discriminate;
       destruct (Z.compare_spec ex ez); try lia; try reflexivity;
       repeat match goal with
       | |- context [(?a ?= ?b)%positive] => destruct (Pos.compare_spec a b)
       end; simpl; try discriminate; try reflexivity; try lia.
Qed.

Lemma ltb_leb_trans (x y z : float) :
  (x <? y)%float = true -> (y <=? z)%float = true -> (x <? z)%float = true.
Proof. rewrite !ltb_spec, leb_spec. apply SFltb_leb_trans. Qed.

(** X3. The classifier is monotone: of two scores with [s1 <= s2] the
    larger never falls into a lower category.  A score at least as large as
    a "Very Similar" one is "Very Similar", at least as large as a
    "Moderately Similar" one is "Moderately Similar" or "Very Similar", and
    a score below a "Not Similar" one is "Not Similar", below a "Somewhat
    Similar" one is "Somewhat Similar" or "Not Similar". *)
Theorem classifier_monotone (s1 s2 : float) :
  (s1 <=? s2)%float = true ->
  (get_similarity_interpretation s1 = lit "Very Similar" ->
   get_similarity_interpretation s2 = lit "Very Similar") /\
  (get_similarity_interpretation s1 = lit "Moderately Similar" ->
   get_similarity_interpretation s2 = lit "Moderately Similar" \/
   get_similarity_interpretation s2 = lit "Very Similar") /\
  (get_similarity_interpretation s2 = lit "Somewhat Similar" ->
   get_similarity_interpretation s1 = lit "Somewhat Similar" \/
   get_similarity_interpretation s1 = lit "Not Similar") /\
  (get_similarity_interpretation s2 = lit "Not Similar" ->
   get_similarity_interpretation s1 = lit "Not Similar").
Proof.
  intros Hle.
  assert (H8 : (0.8 <? s1)%float = true -> (0.8 <? s2)%float = true)
    by (intros H; exact (ltb_leb_trans _ _ _ H Hle)).
  assert (H6 : (0.6 <? s1)%float = true -> (0.6 <? s2)%float = true)
    by (intros H; exact (ltb_leb_trans _ _ _ H Hle)).
  assert (H3 : (0.3 <? s1)%float = true -> (0.3 <? s2)%float = true)
    by (intros H; exact (ltb_leb_trans _ _ _ H Hle)).
  unfold get_similarity_interpretation.
  destruct (0.8 <? s1)%float, (0.6 <? s1)%float, (0.3 <? s1)%float;
    first [rewrite (H8 eq_refl) | clear H8];
    first [rewrite (H6 eq_refl) | clear H6];
    first [rewrite (H3 eq_refl) | clear H3];
    destruct (0.8 <? s2)%float, (0.6 <? s2)%float, (0.3 <? s2)%float;
    try discriminate;
    repeat split; intros; try literal_clash; auto.
Qed.

(** X4. Each category has its own colour: for every score the
    interpretation is "Very Similar" exactly when the colour is #28a745,
    "Moderately Similar" exactly when it is #ffc107, "Somewhat Similar"
    exactly when it is #17a2b8 and "Not Similar" exactly when it is
    #dc3545; no other label or colour is ever returned. *)
Theorem interpretation_color_table (s : float) :
  (get_similarity_interpretation s = lit "Very Similar"
     <-> get_similarity_color s = lit "#28a745") /\
  (get_similarity_interpretation s = lit "Moderately Similar"
     <-> get_similarity_color s = lit "#ffc107") /\
  (get_similarity_interpretation s = lit "Somewhat Similar"
     <-> get_similarity_color s = lit "#17a2b8") /\
  (get_similarity_interpretation s = lit "Not Similar"
     <-> get_similarity_color s = lit "#dc3545") /\
  get_similarity_interpretation s
    ∈ [lit "Very Similar"; lit "Moderately Similar"; lit "Somewhat Similar";
       lit "Not Similar"] /\
  get_similarity_color s
    ∈ [lit "#28a745"; lit "#ffc107"; lit "#17a2b8"; lit "#dc3545"].
Proof.
  unfold get_similarity_interpretation, get_similarity_color.
  destruct (0.8 <? s)%float, (0.6 <? s)%float, (0.3 <? s)%float;
    repeat split; intros; try reflexivity; try literal_clash;
    repeat (first [apply list_elem_of_here | apply list_elem_of_further]).
Qed.

End ClassifierOrder.

(** ** The single-pair pipeline, continued *)

Section SinglePair.

Context {R : Runtime}.

Ltac run := unfold bind, call, getitem, time_time, ret, raise in *; simpl in *.

Lemma encoded_app (tr1 tr2 : list event) :
  encoded (tr1 ++ tr2) = encoded tr1 ++ encoded tr2.
Proof. apply flat_map_app. Qed.

Lemma loaded_app (tr1 tr2 : list event) :
  loaded (tr1 ++ tr2) = loaded tr1 ++ loaded tr2.
Proof. apply flat_map_app. Qed.

(** The preprocessing step of [calculate_similarity]: with accepted options
    it gives the effective texts, otherwise it raises [TypeError]; it calls
    no library. *)
Lemma texts_step_accepted (opts : option (gmap str bool)) (t1 t2 : str) :
  options_accepted opts ->
  match opts with
  | Some kwargs =>
      if bool_decide (kwargs ≠ ∅) then
        (text1 <- preprocess_text_kwargs t1 kwargs;;
         text2 <- preprocess_text_kwargs t2 kwargs;;
         ret (text1, text2))
      else ret (t1, t2)
  | None => ret (t1, t2)
  end = ret (effective_text opts t1, effective_text opts t2).
Proof.
  destruct opts as [kwargs|]; simpl; [|reflexivity].
  intros Hacc. destruct (bool_decide (kwargs ≠ ∅)); [|reflexivity].
  unfold preprocess_text_kwargs. rewrite bool_decide_eq_true_2 by exact Hacc.
  reflexivity.
Qed.

Lemma texts_step_refused (opts : option (gmap str bool)) (t1 t2 : str) :
  ~ options_accepted opts ->
  match opts with
  | Some kwargs =>
      if bool_decide (kwargs ≠ ∅) then
        (text1 <- preprocess_text_kwargs t1 kwargs;;
         text2 <- preprocess_text_kwargs t2 kwargs;;
         ret (text1, text2))
      else ret (t1, t2)
  | None => ret (t1, t2)
  end = raise TypeError.
Proof.
  destruct opts as [kwargs|]; simpl; [|tauto].
  intros Hacc. rewrite bool_decide_eq_true_2.
  - unfold preprocess_text_kwargs. rewrite bool_decide_eq_false_2 by exact Hacc.
    reflexivity.
  - intros ->. apply Hacc. rewrite dom_empty_L. apply empty_subseteq.
Qed.

Lemma options_accepted_dec (opts : option (gmap str bool)) :
  options_accepted opts \/ ~ options_accepted opts.
Proof.
  destruct opts as [kwargs|]; simpl; [|now left].
  destruct (decide (dom kwargs ⊆ {[lit "lowercase"; lit "remove_punctuation"]}));
    [now left | now right].
Qed.

(** What a single-pair call that returns on two non-blank texts has done
    and computed. *)
Lemma single_returns_full t1 t2 model_name opts w s pt interp ti w' :
  nonblank (t1, t2) = true ->
  calculate_similarity t1 t2 model_name opts w = (inr (s, pt, interp, ti), w') ->
  options_accepted opts /\
  exists model tokens1 tokens2 max_seq_length,
    sentence_transformer model_name = inr model /\
    tokenizer_encode model (effective_text opts t1) = inr tokens1 /\
    tokenizer_encode model (effective_text opts t2) = inr tokens2 /\
    get_max_seq_length model = inr max_seq_length /\
    pair_score model (effective_text opts t1, effective_text opts t2) = inr s /\
    interp = get_similarity_interpretation s /\
    pt = (clock_reading (S (clock_reads w)) - clock_reading (clock_reads w))%float /\
    ti = <[ lit "text1_tokens" := Z.of_nat (length tokens1) ]>
         (<[ lit "text2_tokens" := Z.of_nat (length tokens2) ]>
         (<[ lit "total_tokens" := Z.of_nat (length tokens1) + Z.of_nat (length tokens2) ]>
         (<[ lit "max_seq_length" := max_seq_length ]> ∅))) /\
    clock_reads w' = S (S (clock_reads w)) /\
    encoded (trace w')
    = encoded (trace w) ++ [[effective_text opts t1; effective_text opts t2]] /\
    loaded (trace w') = loaded (trace w) ++ [model_name].
Proof.
  unfold nonblank, calculate_similarity, load_model. simpl.
  intros Hn. rewrite <- negb_andb, Hn. simpl.
  unfold bind at 1. unfold time_time at 1. unfold bind at 1.
  destruct (options_accepted_dec opts) as [Hacc | Hacc].
  2: { rewrite (texts_step_refused opts t1 t2 Hacc). discriminate. }
  rewrite (texts_step_accepted opts t1 t2 Hacc).
  set (u1 := effective_text opts t1). set (u2 := effective_text opts t2).
  run.
  destruct (sentence_transformer model_name) as [e|model]; [discriminate|].
  destruct (tokenizer_encode model u1) as [e|tokens1] eqn:T1; [discriminate|].
  destruct (tokenizer_encode model u2) as [e|tokens2] eqn:T2; [discriminate|].
  destruct (get_max_seq_length model) as [e|max_seq_length] eqn:T3; [discriminate|].
  destruct (encode model [u1; u2]) as [e|embeddings] eqn:E1; [discriminate|].
  destruct (embeddings !! 0%nat) as [e0|] eqn:E2; [|discriminate].
  simpl. destruct (embeddings !! 1%nat) as [e1|] eqn:E3; [|discriminate].
  simpl. destruct (cosine_similarity [e0] [e1]) as [e|sm] eqn:E4; [discriminate|].
  destruct (sm !! 0%nat) as [row|] eqn:E5; [|discriminate].
  simpl. destruct (row !! 0%nat) as [score|] eqn:E6; [|discriminate].
  simpl. intros [= <- <- <- <- <-]. split; [exact Hacc|].
  exists model, tokens1, tokens2, max_seq_length. simpl.
  repeat split; try reflexivity; try exact T1; try exact T2; try exact T3.
  - unfold pair_score. simpl. fold u1 u2. now rewrite E1, E2, E3, E4, E5, E6.
  - rewrite <- !app_assoc, !encoded_app. reflexivity.
  - rewrite <- !app_assoc, !loaded_app. reflexivity.
Qed.

(** X5. When the single-pair pipeline returns on two texts that are
    non-empty after trimming, [token_info] has exactly the four keys
    [text1_tokens], [text2_tokens], [total_tokens] and [max_seq_length]; the
    two counts are the lengths of what the tokenizer returns for the
    preprocessed texts (the raw texts when no options are given), the total
    is their sum, and the limit is the loaded model's. *)
Theorem token_info_totals (t1 t2 model_name : str)
    (opts : option (gmap str bool)) (w w' : world)
    (s pt : float) (interp : str) (ti : gmap str Z) :
  nonblank (t1, t2) = true ->
  calculate_similarity t1 t2 model_name opts w = (inr (s, pt, interp, ti), w') ->
  exists model tokens1 tokens2 max_seq_length,
    sentence_transformer model_name = inr model /\
    tokenizer_encode model (effective_text opts t1) = inr tokens1 /\
    tokenizer_encode model (effective_text opts t2) = inr tokens2 /\
    get_max_seq_length model = inr max_seq_length /\
    ti !! lit "text1_tokens" = Some (Z.of_nat (length tokens1)) /\
    ti !! lit "text2_tokens" = Some (Z.of_nat (length tokens2)) /\
    ti !! lit "total_tokens"
      = Some (Z.of_nat (length tokens1) + Z.of_nat (length tokens2)) /\
    ti !! lit "max_seq_length" = Some max_seq_length /\
    dom ti = {[ lit "text1_tokens"; lit "text2_tokens"; lit "total_tokens";
                lit "max_seq_length" ]}.
Proof.
  intros Hn H.
  apply (single_returns_full _ _ _ _ _ _ _ _ _ _ Hn) in H
    as (_ & model & tokens1 & tokens2 & m & Hm & T1 & T2 & T3 & _ & _ & _ & -> & _).
  exists model, tokens1, tokens2, m.
  do 4 (split; [assumption|]).
  (* the keys are literals: the lookups and the domain compute *)
  repeat split.
Qed.

(** X6. When the single-pair pipeline returns on two texts that are
    non-empty after trimming, the score is the one of the preprocessed texts
    under the loaded model, the interpretation is the classifier's label of
    that score, and the processing time is the second clock reading minus
    the first.  The run has read the clock twice, asked for the model once
    and called the encoder once, on the two preprocessed texts together. *)
Theorem single_pair_result (t1 t2 model_name : str)
    (opts : option (gmap str bool)) (w w' : world)
    (s pt : float) (interp : str) (ti : gmap str Z) :
  nonblank (t1, t2) = true ->
  calculate_similarity t1 t2 model_name opts w = (inr (s, pt, interp, ti), w') ->
  (exists model,
     sentence_transformer model_name = inr model /\
     pair_score model (effective_text opts t1, effective_text opts t2) = inr s) /\
  interp = get_similarity_interpretation s /\
  pt = (clock_reading (S (clock_reads w)) - clock_reading (clock_reads w))%float /\
  clock_reads w' = S (S (clock_reads w)) /\
  loaded (trace w') = loaded (trace w) ++ [model_name] /\
  encoded (trace w')
  = encoded (trace w) ++ [[effective_text opts t1; effective_text opts t2]].
Proof.
  intros Hn H.
  apply (single_returns_full _ _ _ _ _ _ _ _ _ _ Hn) in H
    as (_ & model & tokens1 & tokens2 & m & Hm & _ & _ & _ & Hs & Hi & Hpt & _
        & Hc & He & Hl).
  repeat split; try assumption. now exists model.
Qed.

(** X7. Options with a key that is no parameter of [preprocess_text] make
    the single-pair pipeline raise [TypeError] on two texts that are
    non-empty after trimming: the clock has been read once, the model has
    not been asked for and nothing has been tokenized or embedded. *)
Theorem stray_option_raises (t1 t2 model_name : str)
    (opts : option (gmap str bool)) (w : world) :
  nonblank (t1, t2) = true ->
  ~ options_accepted opts ->
  calculate_similarity t1 t2 model_name opts w
  = (inl TypeError, World (trace w) (S (clock_reads w))).
Proof.
  unfold nonblank, calculate_similarity. simpl.
  intros Hn Hacc. rewrite <- negb_andb, Hn. simpl.
  unfold bind at 1. unfold time_time at 1. unfold bind at 1.
  now rewrite (texts_step_refused opts t1 t2 Hacc).
Qed.

End SinglePair.

(** ** The batch pipeline, continued *)

Section BatchEffects.

Context {R : Runtime}.

Ltac run := unfold bind, call, getitem, time_time, ret, raise in *; simpl in *.



Lemma classifier_not_empty_label (s : float) :
  get_similarity_interpretation s <> lit "Empty text detected".
Proof.
  unfold get_similarity_interpretation.
  destruct (0.8 <? s)%float, (0.6 <? s)%float, (0.3 <? s)%float;
    intros H; vm_compute in H; discriminate H.
Qed.


(** X9. In the results of a batch call, the interpretation of a pair's
    result is "Empty text detected" exactly when one of the pair's texts is
    empty after trimming, and then score, percentage and processing time
    are 0.0; for every other pair the interpretation is the classifier's
    label of the score and the percentage is the score times 100. *)
Theorem batch_empty_text_items (pairs : list (str * str)) (model_name : str)
    (w w' : world) (results : list BatchItemResult)
    (k : nat) (p : str * str) (r : BatchItemResult) :
  calculate_batch_similarity pairs model_name w = (inr results, w') ->
  pairs !! k = Some p -> results !! k = Some r ->
  (interpretation r = lit "Empty text detected" <-> nonblank p = false) /\
  (nonblank p = false ->
     similarity_score r = 0.0%float /\ similarity_percentage r = 0.0%float /\
     processing_time r = 0.0%float) /\
  (nonblank p = true ->
     interpretation r = get_similarity_interpretation (similarity_score r) /\
     similarity_percentage r = (similarity_score r * 100)%float).
Proof.
  intros H Hp Hr. apply batch_returns_inv in H as (model & _ & _ & Hitems).
  destruct (Hitems k p Hp) as (r' & Hr' & _ & _ & _ & Hitem).
  rewrite Hr in Hr'. injection Hr' as <-.
  destruct (nonblank p).
  - destruct Hitem as (_ & Hpct & Hint).
    repeat split; intros; try discriminate; try assumption.
    match goal with
    | He : interpretation r = _ |- _ =>
        rewrite Hint in He; now apply classifier_not_empty_label in He
    end.
  - destruct Hitem as (Hs & Hpct & Hint & Hpt).
    repeat split; intros; try discriminate; try assumption; reflexivity.
Qed.

(** X10. The results for the first pairs do not depend on the pairs that
    follow: if the batch call returns for [xs ++ ys], it returns for [xs]
    alone from the same start, and its results are the first [length xs]
    results of the longer call. *)
Theorem batch_prefix (xs ys : list (str * str)) (model_name : str)
    (w w' : world) (results : list BatchItemResult) :
  calculate_batch_similarity (xs ++ ys) model_name w = (inr results, w') ->
  exists w1,
    calculate_batch_similarity xs model_name w = (inr (take (length xs) results), w1).
Proof.
  unfold calculate_batch_similarity, load_model. run.
  destruct (sentence_transformer model_name) as [e|model]; [discriminate|].
  rewrite for_enumerate_app.
  destruct (for_enumerate (batch_body model) 0 xs [] _) as [[e|rs1] w1] eqn:H1;
    [discriminate|].
  intros H. exists w1.
  apply loop_returns in H1 as (items1 & -> & Hlen1 & _).
  apply loop_returns in H as (items2 & -> & _).
  simpl. now rewrite <- Hlen1, take_app_length.
Qed.

End BatchEffects.

(** ** The helpers *)

Section HelperProperties.

Import Helpers.

(** X11. With the default [min_length] of 1, [validate_text_input] accepts
    a text exactly when the text has a code point that is not whitespace;
    with a [min_length] of 0 or less it accepts every text; and a text it
    accepts has at least [min_length] code points. *)
Theorem validate_text_input_accepts (t : str) (min_length : Z) :
  (validate_text_input t 1 = true <-> forallb isspace t = false) /\
  (min_length <= 0 -> validate_text_input t min_length = true) /\
  (validate_text_input t min_length = true -> min_length <= len t).
Proof.
  unfold validate_text_input, len. repeat split.
  - intros H. destruct (forallb isspace t) eqn:E; [|reflexivity].
    apply strip_nil_iff in E. rewrite E in H. discriminate.
  - intros H. destruct (strip t) as [|c u] eqn:E.
    + apply strip_nil_iff in E. congruence.
    + simpl. apply Z.geb_le. lia.
  - intros H. apply Z.geb_le. lia.
  - intros H%Z.geb_le.
    destruct (strip_split t) as (l & r & Ht & _).
    rewrite Ht at 1. rewrite !length_app. lia.
Qed.

Lemma take_app_take {A} (n : nat) (l k : list A) :
  take n (l ++ take n k) = take n (l ++ k).
Proof. rewrite !take_app, take_take. f_equal. f_equal. lia. Qed.

Lemma keep_five {A} (l : list A) :
  (if 5 <? Z.of_nat (length l) then take 5 l else l) = take 5 l.
Proof.
  destruct (5 <? Z.of_nat (length l)) eqn:E; [reflexivity|].
  apply Z.ltb_ge in E. symmetry. apply take_ge. lia.
Qed.

Lemma entry_of_eq now t1 t2 score interp pt :
  entry_of (now, t1, t2, score, interp, pt)
  = {| timestamp := now;
       text1_preview := if 50 <? len t1 then slice_to 50 t1 ++ lit "..." else t1;
       text2_preview := if 50 <? len t2 then slice_to 50 t2 ++ lit "..." else t2;
       similarity_score := score;
       similarity_percentage := (score * 100)%float;
       interpretation := interp;
       processing_time := pt |}.
Proof. reflexivity. Qed.

Lemma save_comparison_history_eq now t1 t2 score interp pt slot :
  save_comparison_history now t1 t2 score interp pt slot
  = take 5 (entry_of (now, t1, t2, score, interp, pt) :: default [] slot).
Proof.
  rewrite entry_of_eq. unfold save_comparison_history. cbv zeta.
  rewrite keep_five. now destruct slot.
Qed.

(** X12. After [save_comparison_history] the history starts with the new
    entry, followed by the first four of the earlier entries in their order:
    it is never empty and never longer than five, whatever was stored
    before.  The entry keeps the score, its hundredfold as percentage, the
    interpretation and the time, and of each text a preview: the text itself
    when it has at most 50 code points, else its first 50 code points and
    three dots. *)
Theorem save_comparison_history_front (now t1 t2 : str) (score : float)
    (interp : str) (pt : float) (slot : option (list Comparison)) :
  exists entry,
    save_comparison_history now t1 t2 score interp pt slot
    = entry :: take 4 (default [] slot) /\
    (length (save_comparison_history now t1 t2 score interp pt slot) <= 5)%nat /\
    timestamp entry = now /\
    similarity_score entry = score /\
    similarity_percentage entry = (score * 100)%float /\
    interpretation entry = interp /\
    processing_time entry = pt /\
    preview_within 50 t1 (text1_preview entry) /\
    preview_within 50 t2 (text2_preview entry).
Proof.
  exists (entry_of (now, t1, t2, score, interp, pt)).
  rewrite save_comparison_history_eq.
  split; [reflexivity|]. split; [rewrite length_take; lia|].
  rewrite entry_of_eq. cbn [timestamp similarity_score similarity_percentage
    interpretation processing_time text1_preview text2_preview].
  assert (Hp : forall t : str,
            preview_within 50 t (if 50 <? len t then slice_to 50 t ++ lit "..." else t)).
  { intros t. unfold preview_within, len, slice_to.
    destruct (50 <? Z.of_nat (length t)) eqn:E.
    - apply Z.ltb_lt in E. split; intros; [reflexivity | lia].
    - apply Z.ltb_ge in E. split; intros; [lia | reflexivity]. }
  repeat split; apply Hp.
Qed.

(** X13. After any number of saves the history holds the entries of the
    most recent saves, newest first, cut to five: the entries of the calls
    in reverse order, followed by what was stored before, and of all that
    the first five. *)
Theorem save_all_keeps_newest_five
    (calls : list (str * str * str * float * str * float))
    (slot : option (list Comparison)) :
  save_all calls slot =
  match calls with
  | [] => slot
  | _ :: _ => Some (take 5 (rev (List.map entry_of calls) ++ default [] slot))
  end.
Proof.
  revert slot. induction calls as [|c calls IH]; intros slot; [reflexivity|].
  unfold save_all in *. simpl.
  destruct c as [[[[[now t1] t2] score] interp] pt].
  rewrite IH, save_comparison_history_eq.
  destruct calls as [|c' calls]; [reflexivity|].
  f_equal. change (default [] (Some ?x)) with x. rewrite take_app_take.
  cbn [List.map rev]. now rewrite <- !app_assoc.
Qed.

(** X14. [display_model_info] shows an entry exactly for the five models
    [get_available_models] offers and shows nothing, without an error, for
    any other name; what it shows (description, dimensions, maximal sequence
    length) is what [MODEL_DESCRIPTIONS] of the configuration records for
    that model. *)
Theorem display_model_info_table (model_name : str) :
  (is_Some (display_model_info model_name) <-> model_name ∈ get_available_models) /\
  display_model_info model_name
  = (fun '(name, description, dimensions, max_seq_length, recommended_for) =>
       (description, dimensions, max_seq_length)) <$> MODEL_DESCRIPTIONS !! model_name.
Proof.
  assert (Hshow : display_model_info model_name = model_info !! model_name).
  { unfold display_model_info. case_bool_decide as Hin; [reflexivity|].
    symmetry. now apply not_elem_of_dom. }
  rewrite Hshow. split.
  - rewrite <- elem_of_dom.
    replace (dom model_info) with (list_to_set get_available_models : gset str)
      by (vm_compute; reflexivity).
    apply elem_of_list_to_set.
  - rewrite <- lookup_fmap. f_equal.
Qed.

End HelperProperties.

(** ** Validation before the single-pair pipeline *)

Section Validated.

Context {R : Runtime}.

(** X15. The check the application makes before it analyses one pair,
    [validate_text_input] on both texts, is the negation of the empty-text
    test of [calculate_similarity].  So for two texts that pass it a
    single-pair call never answers with the empty-text result: when it
    returns, the interpretation is the classifier's label of the score,
    which is not "Empty text detected", and [token_info] is not empty. *)
Theorem validated_pair_never_empty_text (t1 t2 model_name : str)
    (opts : option (gmap str bool)) (w w' : world)
    (s pt : float) (interp : str) (ti : gmap str Z) :
  Helpers.validate_text_input t1 1 = true ->
  Helpers.validate_text_input t2 1 = true ->
  calculate_similarity t1 t2 model_name opts w = (inr (s, pt, interp, ti), w') ->
  interp = get_similarity_interpretation s /\
  interp <> lit "Empty text detected" /\
  ti <> ∅ /\
  w' <> w.
Proof.
  intros H1 H2 H.
  assert (Hn : nonblank (t1, t2) = true).
  { unfold nonblank, Helpers.validate_text_input, len in *. simpl.
    destruct (strip t1), (strip t2); try discriminate; reflexivity. }
  apply (single_returns_full _ _ _ _ _ _ _ _ _ _ Hn) in H
    as (_ & model & tokens1 & tokens2 & m & _ & _ & _ & _ & _ & -> & _ & -> & Hc & _).
  repeat split.
  - apply classifier_not_empty_label.
  - apply insert_non_empty.
  - intros ->. lia.
Qed.

End Validated.

(** ** The further theorems at concrete inputs *)

Lemma lower_single_run_eq :
  calculate_similarity (R := Demo.runtime) (lit " A Cat. ") (lit "a dog")
    Demo.offered_model (Some Demo.lower_options) world0
  = Demo.lower_single_run.
Proof. vm_compute. reflexivity. Qed.

Lemma mixed_batch_run_eq :
  calculate_batch_similarity (R := Demo.runtime) Demo.mixed_pairs
    Demo.offered_model world0
  = Demo.mixed_batch_run.
Proof. vm_compute. reflexivity. Qed.

(** X3 at the scores 0.7 and 0.9. *)
Lemma classifier_monotone_witness :
  (0.7 <=? 0.9)%float = true /\
  (get_similarity_interpretation 0.7 = lit "Moderately Similar" ->
   get_similarity_interpretation 0.9 = lit "Moderately Similar" \/
   get_similarity_interpretation 0.9 = lit "Very Similar").
Proof.
  split; [reflexivity|].
  exact (proj1 (proj2 (classifier_monotone 0.7 0.9 eq_refl))).
Defined.

(** X5 at a call with the option [lowercase]: the first text is counted
    after lowercasing and trimming. *)
Lemma token_info_totals_witness :
  exists s pt interp ti w',
    calculate_similarity (R := Demo.runtime) (lit " A Cat. ") (lit "a dog")
      Demo.offered_model (Some Demo.lower_options) world0
    = (inr (s, pt, interp, ti), w') /\
    effective_text (R := Demo.runtime) (Some Demo.lower_options) (lit " A Cat. ")
    = lit "a cat." /\
    ti !! lit "text1_tokens" = Some 6 /\
    ti !! lit "text2_tokens" = Some 5 /\
    ti !! lit "total_tokens" = Some 11.
Proof.
  pose proof lower_single_run_eq as Hs. unfold Demo.lower_single_run in Hs.
  destruct (@token_info_totals Demo.runtime (lit " A Cat. ") (lit "a dog")
              _ _ _ _ _ _ _ _ eq_refl Hs)
    as (model & tokens1 & tokens2 & m & Hm & T1 & T2 & _ & L1 & L2 & L3 & _).
  injection Hm as <-. injection T1 as <-. injection T2 as <-.
  do 5 eexists. split; [exact Hs|]. split; [reflexivity|].
  split; [exact L1|]. split; [exact L2 | exact L3].
Defined.

(** X6 at the same call. *)
Lemma single_pair_result_witness :
  exists s pt interp ti w',
    calculate_similarity (R := Demo.runtime) (lit " A Cat. ") (lit "a dog")
      Demo.offered_model (Some Demo.lower_options) world0
    = (inr (s, pt, interp, ti), w') /\
    interp = get_similarity_interpretation s /\
    clock_reads w' = 2%nat /\
    loaded (trace w') = [Demo.offered_model] /\
    encoded (trace w') = [[lit "a cat."; lit "a dog"]].
Proof.
  pose proof lower_single_run_eq as Hs. unfold Demo.lower_single_run in Hs.
  destruct (@single_pair_result Demo.runtime (lit " A Cat. ") (lit "a dog")
              _ _ _ _ _ _ _ _ eq_refl Hs)
    as (_ & Hi & _ & Hc & Hl & He).
  do 5 eexists. split; [exact Hs|].
  split; [exact Hi|]. split; [exact Hc|]. split; [exact Hl | exact He].
Defined.

(** X7 at options with the stray key [strip]. *)
Lemma stray_option_raises_witness :
  ~ options_accepted (Some Demo.stray_options) /\
  calculate_similarity (R := Demo.runtime) (lit "a cat") (lit "a dog")
    Demo.offered_model (Some Demo.stray_options) world0
  = (inl TypeError, World [] 1).
Proof.
  assert (H : ~ options_accepted (Some Demo.stray_options)).
  { apply (bool_decide_eq_false_1 _). vm_compute. reflexivity. }
  split; [exact H|].
  exact (@stray_option_raises Demo.runtime (lit "a cat") (lit "a dog")
           Demo.offered_model (Some Demo.stray_options) world0 eq_refl H).
Defined.


(** X9 at the blank second pair of the three. *)
Lemma batch_empty_text_items_witness :
  exists results w' r,
    calculate_batch_similarity (R := Demo.runtime) Demo.mixed_pairs
      Demo.offered_model world0 = (inr results, w') /\
    results !! 1%nat = Some r /\
    interpretation r = lit "Empty text detected" /\
    similarity_score r = 0.0%float /\ processing_time r = 0.0%float.
Proof.
  pose proof mixed_batch_run_eq as Hb. unfold Demo.mixed_batch_run in Hb.
  destruct (@batch_empty_text_items Demo.runtime Demo.mixed_pairs _ _ _ _ 1
              (lit " ", lit "b") _ Hb eq_refl eq_refl) as (Hi & Hz & _).
  destruct (Hz eq_refl) as (Hs & _ & Hp).
  do 3 eexists. split; [exact Hb|]. split; [reflexivity|].
  split; [exact (proj2 Hi eq_refl)|]. split; [exact Hs | exact Hp].
Defined.

(** X10 at the three pairs, cut after the first two. *)
Lemma batch_prefix_witness :
  exists results w' w1,
    calculate_batch_similarity (R := Demo.runtime) Demo.mixed_pairs
      Demo.offered_model world0 = (inr results, w') /\
    calculate_batch_similarity (R := Demo.runtime)
      [(lit "a cat", lit "a dog"); (lit " ", lit "b")] Demo.offered_model world0
    = (inr (take 2 results), w1).
Proof.
  pose proof mixed_batch_run_eq as Hb. unfold Demo.mixed_batch_run in Hb.
  destruct (@batch_prefix Demo.runtime
              [(lit "a cat", lit "a dog"); (lit " ", lit "b")]
              [(lit "banana", lit "b")] _ _ _ _ Hb) as (w1 & H1).
  do 3 eexists. split; [exact Hb | exact H1].
Defined.

(** X15 at two texts that pass the validation. *)
Lemma validated_pair_never_empty_text_witness :
  Helpers.validate_text_input (lit " A Cat. ") 1 = true /\
  Helpers.validate_text_input (lit "a dog") 1 = true /\
  exists s pt interp ti w',
    calculate_similarity (R := Demo.runtime) (lit " A Cat. ") (lit "a dog")
      Demo.offered_model (Some Demo.lower_options) world0
    = (inr (s, pt, interp, ti), w') /\
    interp <> lit "Empty text detected" /\ ti <> ∅.
Proof.
  pose proof lower_single_run_eq as Hs. unfold Demo.lower_single_run in Hs.
  destruct (@validated_pair_never_empty_text Demo.runtime
              (lit " A Cat. ") (lit "a dog") _ _ _ _ _ _ _ _
              eq_refl eq_refl Hs) as (_ & Hi & Ht & _).
  split; [reflexivity|]. split; [reflexivity|].
  do 5 eexists. split; [exact Hs|]. split; [exact Hi | exact Ht].
Defined.

(** ** Batch score and single-pair score *)

Section BatchAndSingle.

Context {R : Runtime}.

(** C7, as the code has it.  For a pair whose texts are both non-empty
    after trimming, the score in the pair's batch result is the score the
    single-pair pipeline returns for the same raw texts and the same model
    name whenever the single-pair pipeline leaves the texts as they are:
    when [preprocess_options] is [None] or the empty dictionary, for which
    it skips [preprocess_text], and when it is a dictionary with both
    options off and neither text has whitespace at its ends, the only thing
    [preprocess_text] then removes. *)
Theorem batch_score_matches_single (pairs : list (str * str))
    (model_name : str) (k : nat) (t1 t2 : str)
    (opts : option (gmap str bool)) (w1 w1' w2 w2' : world)
    (results : list BatchItemResult)
    (s pt : float) (interp : str) (ti : gmap str Z) :
  pairs !! k = Some (t1, t2) ->
  strip t1 <> [] -> strip t2 <> [] ->
  (opts = None \/ opts = Some ∅ \/
   exists kwargs,
     opts = Some kwargs /\
     default false (kwargs !! lit "lowercase") = false /\
     default false (kwargs !! lit "remove_punctuation") = false /\
     strip t1 = t1 /\ strip t2 = t2) ->
  calculate_batch_similarity pairs model_name w1 = (inr results, w1') ->
  calculate_similarity t1 t2 model_name opts w2 = (inr (s, pt, interp, ti), w2') ->
  exists r, results !! k = Some r /\ similarity_score r = s.
Proof.
  intros Hk H1 H2 Hopts Hb Hs.
  assert (Hn : nonblank (t1, t2) = true).
  { unfold nonblank. simpl. now rewrite !truthy_strip. }
  assert (Heff : effective_text opts t1 = t1 /\ effective_text opts t2 = t2).
  { destruct Hopts as [-> | [-> | (kwargs & -> & Hlow & Hrp & Ht1 & Ht2)]].
    - now split.
    - now split.
    - unfold effective_text. rewrite Hlow, Hrp. unfold preprocess_text.
      rewrite Ht1, Ht2. now destruct (bool_decide (kwargs ≠ ∅)). }
  destruct Heff as [E1 E2].
  apply batch_returns_inv in Hb as (model & Hm & _ & Hitems).
  destruct (Hitems k _ Hk) as (r & Hr & _ & _ & _ & Hitem).
  rewrite Hn in Hitem. destruct Hitem as (Hscore & _).
  apply (single_returns_full _ _ _ _ _ _ _ _ _ _ Hn) in Hs
    as (_ & model' & _ & _ & _ & Hm' & _ & _ & _ & Hscore' & _).
  rewrite E1, E2 in Hscore'.
  rewrite Hm in Hm'. injection Hm' as <-.
  rewrite Hscore in Hscore'. injection Hscore' as <-.
  now exists r.
Qed.

End BatchAndSingle.

Lemma false_single_run_eq :
  calculate_similarity (R := Demo.runtime) (lit "a cat") (lit "a dog")
    Demo.offered_model (Some Demo.false_options) world0
  = Demo.false_single_run.
Proof. vm_compute. reflexivity. Qed.

(** C7 at the second pair of a batch of two, against the single-pair
    pipeline with both options [False]: neither text has whitespace at its
    ends. *)
Lemma batch_score_matches_single_witness :
  exists results w1' s pt interp ti w2' r,
    calculate_batch_similarity (R := Demo.runtime)
      [(lit "a", lit "a"); (lit "a cat", lit "a dog")] Demo.offered_model world0
    = (inr results, w1') /\
    calculate_similarity (R := Demo.runtime) (lit "a cat") (lit "a dog")
      Demo.offered_model (Some Demo.false_options) world0
    = (inr (s, pt, interp, ti), w2') /\
    results !! 1%nat = Some r /\ similarity_score r = s.
Proof.
  pose proof cat_batch_run_eq as Hb. pose proof false_single_run_eq as Hs.
  unfold Demo.cat_batch_run in Hb. unfold Demo.false_single_run in Hs.
  assert (H1 : strip (lit "a cat") <> []) by (vm_compute; discriminate).
  assert (H2 : strip (lit "a dog") <> []) by (vm_compute; discriminate).
  assert (Hopts : Some Demo.false_options = None \/
                  Some Demo.false_options = Some ∅ \/
                  exists kwargs,
                    Some Demo.false_options = Some kwargs /\
                    default false (kwargs !! lit "lowercase") = false /\
                    default false (kwargs !! lit "remove_punctuation") = false /\
                    strip (lit "a cat") = lit "a cat" /\
                    strip (lit "a dog") = lit "a dog").
  { right. right. exists Demo.false_options. repeat split. }
  destruct (@batch_score_matches_single Demo.runtime
              [(lit "a", lit "a"); (lit "a cat", lit "a dog")] Demo.offered_model
              1 (lit "a cat") (lit "a dog") (Some Demo.false_options)
              _ _ _ _ _ _ _ _ _
              eq_refl H1 H2 Hopts Hb Hs) as (r & Hr & Hrs).
  do 8 eexists. split; [exact Hb|]. split; [exact Hs|]. split; [exact Hr | exact Hrs].
Defined.

(** C7 as stated fails: with the dictionary the application passes when no
    option is chosen, both options [False], no option is applied, yet the
    single-pair pipeline trims the texts before it embeds them and the batch
    pipeline does not.  For the pair (" a", "b") the batch score is the one
    of the raw texts, which the single-pair pipeline also returns for [None]
    and for the empty dictionary, and the single-pair score with both
    options [False] is another one, in another category. *)
Lemma false_options_change_score :
  Demo.false_options !! lit "lowercase" = Some false /\
  Demo.false_options !! lit "remove_punctuation" = Some false /\
  strip (lit " a") <> [] /\ strip (lit "b") <> [] /\
  exists r w1' s pt ti w2' s0 pt0 ti0 w3',
    calculate_batch_similarity (R := Demo.runtime) [(lit " a", lit "b")]
      Demo.offered_model world0 = (inr [r], w1') /\
    calculate_similarity (R := Demo.runtime) (lit " a") (lit "b")
      Demo.offered_model (Some Demo.false_options) world0
    = (inr (s, pt, lit "Moderately Similar", ti), w2') /\
    calculate_similarity (R := Demo.runtime) (lit " a") (lit "b")
      Demo.offered_model None world0
    = (inr (s0, pt0, lit "Very Similar", ti0), w3') /\
    similarity_score r = s0 /\
    interpretation r = lit "Very Similar" /\
    (similarity_score r =? s)%float = false /\
    similarity_score r <> s.
Proof.
  split; [reflexivity|]. split; [reflexivity|].
  split; [vm_compute; discriminate|]. split; [vm_compute; discriminate|].
  do 10 eexists.
  split; [vm_compute; reflexivity|].
  split; [vm_compute; reflexivity|].
  split; [vm_compute; reflexivity|].
  split; [reflexivity|]. split; [reflexivity|]. split; [reflexivity|].
  intros H. apply (f_equal (fun x => (0.8 <? x)%float)) in H.
  vm_compute in H. discriminate H.
Qed.
